(** * read_input.py: extraction, cleaning, alignment and account lookup

    A shallow embedding of [src/read_input.py].  Python strings are sequences
    of Unicode code points, Python lists that are shared and mutated (the
    13-field account records) live in an explicit heap, and the statements of
    [main] run in a small state-and-exception monad. *)

From Stdlib Require Import ZArith NArith List Ascii String Bool Lia.
From Stdlib Require Import Numbers.DecimalString.
From stdpp Require Import base option list countable gmap.

Import ListNotations.
Local Open Scope N_scope.

(** ** Python strings *)

(** A character is a code point; a [str] is a list of them. *)
Definition char := N.
Bind Scope N_scope with char.
Abbreviation pystr := (list N).

(** Source literals are written as UTF-8 text and decoded to code points. *)
Fixpoint utf8_decode (bs : list N) : pystr :=
  match bs with
  | [] => []
  | b :: r =>
      if b <? 128 then b :: utf8_decode r
      else if b <? 224 then
        match r with
        | b1 :: r' => ((b - 192) * 64 + (b1 - 128)) :: utf8_decode r'
        | _ => []
        end
      else if b <? 240 then
        match r with
        | b1 :: b2 :: r' =>
            ((b - 224) * 4096 + (b1 - 128) * 64 + (b2 - 128)) :: utf8_decode r'
        | _ => []
        end
      else
        match r with
        | b1 :: b2 :: b3 :: r' =>
            ((b - 240) * 262144 + (b1 - 128) * 4096 + (b2 - 128) * 64 + (b3 - 128))
              :: utf8_decode r'
        | _ => []
        end
  end.

Definition u (s : string) : pystr :=
  utf8_decode (List.map N_of_ascii (list_ascii_of_string s)).

Definition pystr_eqb (a b : pystr) : bool := bool_decide (a = b).

(** [str.isspace] on one character: the code points CPython's
    [_PyUnicode_IsWhitespace] accepts. *)
Definition isspace (c : char) : bool :=
  ((9 <=? c) && (c <=? 13)) || ((28 <=? c) && (c <=? 32))
  || (c =? 133) || (c =? 160) || (c =? 5760)
  || ((8192 <=? c) && (c <=? 8202))
  || (c =? 8232) || (c =? 8233) || (c =? 8239) || (c =? 8287) || (c =? 12288).

(** The line boundaries of [str.splitlines]: LF, VT, FF, CR, FS, GS, RS, NEL,
    LINE SEPARATOR and PARAGRAPH SEPARATOR (CR LF is one boundary, handled in
    [splitlines_from]). *)
Definition is_linebreak (c : char) : bool :=
  ((10 <=? c) && (c <=? 13)) || ((28 <=? c) && (c <=? 30))
  || (c =? 133) || (c =? 8232) || (c =? 8233).

Fixpoint lstrip (s : pystr) : pystr :=
  match s with
  | [] => []
  | c :: r => if isspace c then lstrip r else s
  end.

Definition rstrip (s : pystr) : pystr := rev (lstrip (rev s)).

(** [s.strip()] *)
Definition strip (s : pystr) : pystr := rstrip (lstrip s).

(** [s.splitlines()], with [cur] the line read so far.  A boundary closes the
    current line (even an empty one); text after the last boundary is a line
    only when it is non-empty. *)
Fixpoint splitlines_from (cur : pystr) (s : pystr) : list pystr :=
  match s with
  | [] => match cur with [] => [] | _ => [cur] end
  | c :: r =>
      if c =? 13 then
        match r with
        | 10 :: r' => cur :: splitlines_from [] r'
        | _ => cur :: splitlines_from [] r
        end
      else if is_linebreak c then cur :: splitlines_from [] r
      else splitlines_from (cur ++ [c]) r
  end.

Definition splitlines (s : pystr) : list pystr := splitlines_from [] s.

(** [sep.join(parts)] *)
Fixpoint join (sep : pystr) (parts : list pystr) : pystr :=
  match parts with
  | [] => []
  | [p] => p
  | p :: ps => p ++ sep ++ join sep ps
  end.

(** [s.replace(old, new)] for a one-character [old]. *)
Definition replace (old : char) (new : pystr) (s : pystr) : pystr :=
  flat_map (fun c => if c =? old then new else [c]) s.

(** [x in {...}] for a set literal of strings: membership is string equality. *)
Definition in_set (x : pystr) (set : list pystr) : bool :=
  existsb (pystr_eqb x) set.

(** ** Text normalizer *)

Section Cleaning.

(** [str.isdigit] on one character is the Unicode database's digit table,
    which is not part of the repository: it is a parameter. *)
Variable isdigit : char -> bool.

(** def clean_extracted_text(text, is_account=False) *)
Definition clean_extracted_text (text : pystr) (is_account : bool) : list pystr :=
  match text with
  | [] => []
  | _ =>
      let lines :=
        List.map strip
          (List.filter (fun entry => negb (pystr_eqb (strip entry) []))
             (splitlines text)) in
      if is_account then lines
      else
        fold_left
          (fun cleaned entry =>
             let entry := replace 44 (u ".") (replace 32 [] entry) in
             let entry :=
               List.filter
                 (fun c => isdigit c || in_set [c] [u "."; u "€"; u "EUR"])
                 entry in
             if existsb isdigit entry then cleaned ++ [entry] else cleaned)
          lines []
  end.

End Cleaning.

(** ** Python values, exceptions and the interpreter state *)

(** The scalars that reach the pipeline: [None], strings and integers.
    Spreadsheet cells that hold floating-point numbers are outside the model. *)
Inductive value :=
| PyNone
| PyStr (s : pystr)
| PyInt (z : Z).

#[global] Instance value_eq_dec : EqDecision value.
Proof. solve_decision. Defined.

(** [str(v)] *)
Definition py_str (v : value) : pystr :=
  match v with
  | PyNone => u "None"
  | PyStr s => s
  | PyInt z => u (NilZero.string_of_int (Z.to_int z))
  end.

Inductive exn :=
| FileNotFoundError (msg : pystr)
| IndexError (msg : pystr)
| KeyError (msg : pystr)
| TypeError (msg : pystr)
| Exception (msg : pystr).

(** [str(e)] *)
Definition exn_str (e : exn) : pystr :=
  match e with
  | FileNotFoundError m | IndexError m | KeyError m | TypeError m | Exception m => m
  end.

(** A 13-field account record is a Python list object: the heap maps its
    address to its current contents, so two names for one list see each
    other's assignments. *)
Abbreviation loc := nat.
Abbreviation record := (list value).

(** A table as [polars] holds it: a height and named columns of that height. *)
Record Frame := mkFrame {
  height : nat;
  columns : list (pystr * (nat -> value));
}.

Inductive Output :=
| Line (s : pystr)
| ShowTable (schema : list pystr) (rows : list record).

Record State := mkState {
  heap : list record;
  stdout : list Output;
  csv_file : option (pystr * (list pystr * list record));
}.

Definition M (A : Type) : Type := State -> (exn + A) * State.

Definition ret {A} (a : A) : M A := fun st => (inr a, st).
Definition raise {A} (e : exn) : M A := fun st => (inl e, st).
Definition bind {A B} (c : M A) (k : A -> M B) : M B :=
  fun st =>
    match c st with
    | (inl e, st') => (inl e, st')
    | (inr a, st') => k a st'
    end.

Declare Scope py_scope.
Delimit Scope py_scope with py.
Notation "x <- c ;; k" := (bind c (fun x => k))
  (at level 100, c at next level, right associativity) : py_scope.
Notation "c ;;; k" := (bind c (fun _ => k))
  (at level 100, right associativity) : py_scope.
Local Open Scope py_scope.

(** [print(s)] *)
Definition print (s : pystr) : M unit :=
  fun st => (inr tt, mkState (heap st) (stdout st ++ [Line s]) (csv_file st)).

(** A list display [[...]]: a fresh list object. *)
Definition new_list (r : record) : M loc :=
  fun st => (inr (length (heap st)), mkState (heap st ++ [r]) (stdout st) (csv_file st)).

(** The current contents of the list at [l]. *)
Definition read_list (l : loc) : M record :=
  fun st =>
    match heap st !! l with
    | Some r => (inr r, st)
    | None => (inl (Exception (u "dangling reference")), st)
    end.

(** [lst[i]] *)
Definition getitem (l : loc) (i : nat) : M value :=
  r <- read_list l ;;
  match r !! i with
  | Some v => ret v
  | None => raise (IndexError (u "list index out of range"))
  end.

(** [lst[i] = v]: in place, [IndexError] out of range. *)
Definition setitem (l : loc) (i : nat) (v : value) : M unit :=
  r <- read_list l ;;
  if (i <? length r)%nat then
    fun st => (inr tt, mkState (<[l := <[i := v]> r]> (heap st)) (stdout st) (csv_file st))
  else raise (IndexError (u "list assignment index out of range")).

(** try: body / except Exception as e: handler(e) *)
Definition try_except {A} (body : M A) (handler : exn -> M A) : M A :=
  fun st =>
    match body st with
    | (inl e, st') => handler e st'
    | (inr a, st') => (inr a, st')
    end.

Definition lift {A} (r : exn + A) : M A :=
  match r with
  | inl e => raise e
  | inr a => ret a
  end.

(** [lst[i]] on a list that nothing else refers to. *)
Definition index {A} (lst : list A) (i : nat) : M A :=
  match lst !! i with
  | Some x => ret x
  | None => raise (IndexError (u "list index out of range"))
  end.

(** ** Account lookup *)

(** def lookup_account_info(account_num, lookup_table) *)
Definition lookup_account_info (account_num : value) (lookup_table : gmap pystr loc)
  : M loc :=
  default_info <- new_list (repeat PyNone 13) ;;
  match account_num with
  | PyNone => ret default_info
  | _ =>
      let account_str := strip (py_str account_num) in
      let first_three_digits :=
        if (3 <=? length account_str)%nat then take 3 account_str else account_str in
      match lookup_table !! first_three_digits with
      | Some template => ret template
      | None =>
          setitem default_info 2 (PyStr account_str) ;;;
          ret default_info
      end
  end.

(** ** Aligner *)

(** [max(len(lst) for lst in lists)] over a non-empty list. *)
Definition max_len (first : list value) (rest : list (list value)) : nat :=
  fold_left (fun m lst => Nat.max m (length lst)) rest (length first).

(** def combine_and_pad_lists(lists) *)
Definition combine_and_pad_lists (lists : list (list value)) : list (list value) :=
  match lists with
  | [] => []
  | first :: rest =>
      let max_length := max_len first rest in
      fold_left
        (fun padded_lists lst =>
           padded_lists ++ [lst ++ repeat PyNone (max_length - length lst)])
        lists []
  end.

(** ** Configuration *)

Definition EXCEL_PATH : pystr := u "input/EXEMPLE EXCEL.xlsx".
Definition PDF_PATH : pystr := u "input/CIC.pdf".

Definition EXCEL_ACCOUNT_CELL : gmap pystr value :=
  {[ u "skiprows" := PyInt 0; u "nrows" := PyInt 1; u "usecols" := PyStr (u "I") ]}.
Definition EXCEL_DATA_RANGE : gmap pystr value :=
  {[ u "skiprows" := PyInt 3; u "nrows" := PyInt 1; u "usecols" := PyStr (u "L:M") ]}.
Definition EXCEL_VALUE_COL : pystr := u "Coût d'acquisition".
Definition EXCEL_CHANGE_COL : pystr := u "Valorisation ".

(** fitz.Rect(x0, y0, x1, y1) *)
Definition Rect : Type := Z * Z * Z * Z.

(** A dict literal iterated in insertion order. *)
Definition PDF_RECTANGLES : list (pystr * Rect) :=
  [ (u "value", (370, 120, 470, 140)%Z);
    (u "change", (370, 150, 444, 165)%Z);
    (u "account_num", (100, 150, 200, 170)%Z) ].

(** The two template lists of LOOKUP_TABLE, as written in the source. *)
Definition template_193 : record :=
  [ PyStr (u "Juandi"); PyStr (u "Debit account"); PyStr (u "193000"); PyStr (u "CIC");
    PyStr (u "Funds"); PyStr (u "A123"); PyStr (u ""); PyStr (u "EUR");
    PyStr (u "Medellin"); PyStr (u "Fund XYZ"); PyNone; PyNone; PyStr (u "Finance") ].
Definition template_100 : record :=
  [ PyStr (u "Juanse"); PyStr (u "Credit account"); PyStr (u "100123"); PyStr (u "EXEX");
    PyStr (u "Stocks"); PyStr (u "B456"); PyStr (u ""); PyStr (u "EUR");
    PyStr (u "Tolima"); PyStr (u "Stock ABC"); PyNone; PyNone; PyStr (u "Technology") ].

(** LOOKUP_TABLE: the dict holds the addresses of its two lists, which module
    start-up allocates at 0 and 1. *)
Definition LOOKUP_TABLE : gmap pystr loc := {[ u "193" := 0%nat; u "100" := 1%nat ]}.

Definition initial_state : State := mkState [template_193; template_100] [] None.

(** ** Source readers *)

(** What a reader hands back: a scalar (with [None]) or a table. *)
Inductive pyobj :=
| Scalar (v : value)
| DataFrame (f : Frame).

(** The external collaborators: the spreadsheet reader [pd.read_excel] and the
    PDF library ([fitz.open], [page.get_textbox]). *)
Record Page := mkPage { get_textbox : Rect -> exn + pystr }.

Record World := mkWorld {
  pd_read_excel : pystr -> gmap pystr value -> exn + Frame;
  fitz_open : pystr -> exn + list Page;
}.

(** [df.empty] *)
Definition frame_empty (f : Frame) : bool :=
  (height f =? 0)%nat || (length (columns f) =? 0)%nat.

(** [df.iloc[0, 0]] *)
Definition iloc_0_0 (f : Frame) : M value :=
  match columns f with
  | (_, col) :: _ =>
      if (0 <? height f)%nat then ret (col 0%nat)
      else raise (IndexError (u "single positional indexer is out-of-bounds"))
  | [] => raise (IndexError (u "single positional indexer is out-of-bounds"))
  end.

(** [pl.from_pandas(df)]: the same table. *)
Definition pl_from_pandas (f : Frame) : Frame := f.

(** def read_excel_data(path, **kwargs) *)
Definition read_excel_data (w : World) (path : pystr) (kwargs : gmap pystr value)
  : M pyobj :=
  try_except
    (df_pandas <- lift (pd_read_excel w path kwargs) ;;
     if bool_decide (kwargs !! u "nrows" = Some (PyInt 1))
        && bool_decide (kwargs !! u "usecols" = Some (PyStr (u "I")))
     then
       if negb (frame_empty df_pandas)
       then v <- iloc_0_0 df_pandas ;; ret (Scalar v)
       else ret (Scalar PyNone)
     else ret (DataFrame (pl_from_pandas df_pandas)))
    (fun e =>
       match e with
       | FileNotFoundError _ =>
           print (u "Error: Excel file not found at " ++ path) ;;;
           ret (Scalar PyNone)
       | _ =>
           print (u "Error reading Excel data: " ++ exn_str e) ;;;
           ret (Scalar PyNone)
       end).

(** The inner loop of [extract_pdf_data]: [for key, rect in rectangles.items()].
    [extracted_data] is updated in place, so what was collected before an
    exception stays collected. *)
Fixpoint scan_rectangles (page : Page) (rectangles : list (pystr * Rect))
  (extracted_data : gmap pystr (list pystr)) : option exn * gmap pystr (list pystr) :=
  match rectangles with
  | [] => (None, extracted_data)
  | (key, rect) :: rest =>
      match get_textbox page rect with
      | inl e => (Some e, extracted_data)
      | inr t =>
          let text := strip t in
          scan_rectangles page rest
            (alter (fun lines => lines ++ splitlines text) key extracted_data)
      end
  end.

(** The outer loop: [for page_num in range(min(num_pages, len(doc)))]. *)
Fixpoint scan_pages (doc : list Page) (page_nums : list nat)
  (rectangles : list (pystr * Rect))
  (extracted_data : gmap pystr (list pystr)) : option exn * gmap pystr (list pystr) :=
  match page_nums with
  | [] => (None, extracted_data)
  | page_num :: rest =>
      match doc !! page_num with
      | None => (Some (IndexError (u "page not in document")), extracted_data)
      | Some page =>
          match scan_rectangles page rectangles extracted_data with
          | (Some e, extracted_data) => (Some e, extracted_data)
          | (None, extracted_data) => scan_pages doc rest rectangles extracted_data
          end
      end
  end.

(** def extract_pdf_data(pdf_path, rectangles, num_pages=1) *)
Definition extract_pdf_data (w : World) (pdf_path : pystr)
  (rectangles : list (pystr * Rect)) (num_pages : Z) : M (gmap pystr (list pystr)) :=
  let extracted_data : gmap pystr (list pystr) :=
    list_to_map (List.map (fun kr => (fst kr, [])) rectangles) in
  let '(raised, extracted_data) :=
    match fitz_open w pdf_path with
    | inl e => (Some e, extracted_data)
    | inr doc =>
        scan_pages doc
          (seq 0 (Z.to_nat (Z.min num_pages (Z.of_nat (length doc)))))
          rectangles extracted_data
    end in
  match raised with
  | None => ret extracted_data
  | Some (FileNotFoundError _) =>
      print (u "Error: PDF file not found at " ++ pdf_path) ;;;
      ret extracted_data
  | Some e =>
      print (u "Error processing PDF: " ++ exn_str e) ;;;
      ret extracted_data
  end.

(** [d[key]] *)
Definition dict_getitem {A} (d : gmap pystr A) (key : pystr) : M A :=
  match d !! key with
  | Some x => ret x
  | None => raise (KeyError key)
  end.

(** ** Main logic *)

(** [df is not None and len(df) > 0 and col in df.columns], then [df[col][0]]:
    the spreadsheet scalar that opens a combined sequence, when there is one. *)
Definition excel_scalar (df_excel : pyobj) (col : pystr) : M (list value) :=
  match df_excel with
  | Scalar PyNone => ret []
  | Scalar _ => raise (TypeError (u "object has no len()"))
  | DataFrame df =>
      if (0 <? height df)%nat
         && bool_decide (col ∈ List.map fst (columns df))
      then
        match list_find (fun c => fst c = col) (columns df) with
        | Some (_, (_, series)) => ret [series 0%nat]
        | None => raise (KeyError col)
        end
      else ret []
  end.

Definition SCHEMA : list pystr :=
  [ u "Client"; u "Type de compte"; u "Nom et N. de compte"; u "Nom de banque";
    u "Classe d'actifs"; u "Code ISIN"; u "Cours"; u "Devise";
    u "Zone géographique"; u "Libellé"; u "Quantité"; u "Prix de revient";
    u "Secteur" ].

Definition OUTPUT_PATH : pystr := u "extracted_data_with_full_details.csv".

(** [df.write_csv(path)] *)
Definition write_csv (path : pystr) (schema : list pystr) (rows : list record) : M unit :=
  fun st => (inr tt, mkState (heap st) (stdout st) (Some (path, (schema, rows)))).

(** [print(df)] *)
Definition print_frame (schema : list pystr) (rows : list record) : M unit :=
  fun st => (inr tt, mkState (heap st) (stdout st ++ [ShowTable schema rows]) (csv_file st)).

(** The row loop of [main]: [for i in range(max_rows)]. *)
Fixpoint assemble_rows (indices : list nat)
  (combined_quantity combined_prix_revient combined_accounts_identifiers : list value)
  (final_data_rows : list loc) : M (list loc) :=
  match indices with
  | [] => ret final_data_rows
  | i :: rest =>
      account_id <- index combined_accounts_identifiers i ;;
      account_template <- lookup_account_info account_id LOOKUP_TABLE ;;
      (if (i <? length combined_quantity)%nat
       then v <- index combined_quantity i ;; setitem account_template 10 v
       else ret tt) ;;;
      (if (i <? length combined_prix_revient)%nat
       then v <- index combined_prix_revient i ;; setitem account_template 11 v
       else ret tt) ;;;
      assemble_rows rest combined_quantity combined_prix_revient
        combined_accounts_identifiers (final_data_rows ++ [account_template])
  end.

(** [mapM read_list]: the table constructor reads every row list. *)
Fixpoint read_rows (rows : list loc) : M (list record) :=
  match rows with
  | [] => ret []
  | l :: rest => r <- read_list l ;; rs <- read_rows rest ;; ret (r :: rs)
  end.

(** Sections 1 to 3 of [main]: read both sources and build the three combined
    sequences (quantity, cost basis, account identifiers). *)
Definition main_inputs (isdigit : char -> bool) (w : World)
  : M (list value * list value * list value) :=
  (* 1. Read Excel Data *)
  excel_account <- read_excel_data w EXCEL_PATH EXCEL_ACCOUNT_CELL ;;
  df_excel <- read_excel_data w EXCEL_PATH EXCEL_DATA_RANGE ;;
  excel_account <-
    match excel_account with
    | Scalar v => ret v
    | DataFrame _ => raise (TypeError (u "the account cell is a scalar"))
    end ;;
  print (u "Account from Excel: " ++ py_str excel_account) ;;;
  excel_account_info_list <- lookup_account_info excel_account LOOKUP_TABLE ;;
  full <- getitem excel_account_info_list 2 ;;
  name <- getitem excel_account_info_list 0 ;;
  city <- getitem excel_account_info_list 8 ;;
  print (u "Excel account lookup (partial): Full Account: " ++ py_str full
         ++ u ", Name: " ++ py_str name ++ u ", City: " ++ py_str city) ;;;
  (* 2. Extract PDF Data *)
  pdf_raw_data <- extract_pdf_data w PDF_PATH PDF_RECTANGLES 1 ;;
  raw_value <- dict_getitem pdf_raw_data (u "value") ;;
  let cleaned_pdf_value := clean_extracted_text isdigit (join (u " ") raw_value) false in
  raw_change <- dict_getitem pdf_raw_data (u "change") ;;
  let cleaned_pdf_change := clean_extracted_text isdigit (join (u " ") raw_change) false in
  raw_accounts <- dict_getitem pdf_raw_data (u "account_num") ;;
  let cleaned_pdf_accounts := clean_extracted_text isdigit (join (u " ") raw_accounts) true in
  (* 3. Combine PDF and Excel Data *)
  excel_value <- excel_scalar df_excel EXCEL_VALUE_COL ;;
  let combined_quantity := excel_value ++ List.map PyStr cleaned_pdf_value in
  excel_change <- excel_scalar df_excel EXCEL_CHANGE_COL ;;
  let combined_prix_revient := excel_change ++ List.map PyStr cleaned_pdf_change in
  let combined_accounts_identifiers :=
    (match excel_account with PyNone => [] | _ => [excel_account] end)
      ++ List.map PyStr cleaned_pdf_accounts in
  ret (combined_quantity, combined_prix_revient, combined_accounts_identifiers).

(** The padding step and section 4 of [main]: one looked-up record per aligned
    index. *)
Definition main_rows
  (combined_quantity combined_prix_revient combined_accounts_identifiers : list value)
  : M (list loc) :=
  let padded_dynamic_lists :=
    combine_and_pad_lists
      [combined_quantity; combined_prix_revient; combined_accounts_identifiers] in
  combined_quantity <- index padded_dynamic_lists 0 ;;
  combined_prix_revient <- index padded_dynamic_lists 1 ;;
  combined_accounts_identifiers <- index padded_dynamic_lists 2 ;;
  (* 4. Apply Account Lookup to Combined Accounts *)
  let max_rows := length combined_accounts_identifiers in
  assemble_rows (seq 0 max_rows) combined_quantity combined_prix_revient
    combined_accounts_identifiers [].

(** Section 5 of [main]: create and save the table, or report that there is
    nothing to save. *)
Definition main_save (final_data_rows : list loc) : M unit :=
  match final_data_rows with
  | _ :: _ =>
      rows <- read_rows final_data_rows ;;
      print (u "
Combined PDF and Excel Data:") ;;;
      print_frame SCHEMA rows ;;;
      write_csv OUTPUT_PATH SCHEMA rows ;;;
      print (u "
Data saved to extracted_data_with_full_details.csv")
  | [] => print (u "No meaningful data extracted from PDF or Excel file.")
  end.

(** def main() *)
Definition main (isdigit : char -> bool) (w : World) : M unit :=
  inputs <- main_inputs isdigit w ;;
  let '(combined_quantity, combined_prix_revient, combined_accounts_identifiers) :=
    inputs in
  final_data_rows <-
    main_rows combined_quantity combined_prix_revient combined_accounts_identifiers ;;
  main_save final_data_rows.


(** The ASCII digits: the part of the digit table every Unicode version
    shares, and an instance of the parameter to run the program on. *)
Definition ascii_isdigit (c : char) : bool := (48 <=? c) && (c <=? 57).

(** ** Concrete worlds *)

(** A one-row table. *)
Definition one_row (cells : list (pystr * value)) : Frame :=
  mkFrame 1 (List.map (fun nv => (fst nv, fun _ : nat => snd nv)) cells).

(** A page whose three configured rectangles hold the given texts. *)
Definition page_of (value_text change_text account_text : pystr) : Page :=
  mkPage (fun rect =>
    if bool_decide (rect = (370, 120, 470, 140)%Z) then inr value_text
    else if bool_decide (rect = (370, 150, 444, 165)%Z) then inr change_text
    else if bool_decide (rect = (100, 150, 200, 170)%Z) then inr account_text
    else inr []).

(** Both files present: the account cell, the one-row data range, one page. *)
Definition world_of (account quantity valorisation : value)
  (value_text change_text account_text : pystr) : World :=
  mkWorld
    (fun _ kwargs =>
       if bool_decide (kwargs !! u "usecols" = Some (PyStr (u "I")))
       then inr (one_row [(u "Compte", account)])
       else inr (one_row [(EXCEL_VALUE_COL, quantity); (EXCEL_CHANGE_COL, valorisation)]))
    (fun _ => inr [page_of value_text change_text account_text]).

(** Both files missing. *)
Definition missing_world : World :=
  mkWorld
    (fun path _ => inl (FileNotFoundError path))
    (fun path => inl (FileNotFoundError path)).

Definition run (w : World) : (exn + unit) * State := main ascii_isdigit w initial_state.


(** ** Vocabulary of the statements *)

(** The characters the numeric filter lets through. *)
Definition kept (isdigit : char -> bool) (c : char) : bool :=
  isdigit c || (c =? 46) || (c =? 8364).

(** What the body of the numeric loop makes of one line. *)
Definition normalize_line (isdigit : char -> bool) (entry : pystr) : pystr :=
  List.filter (kept isdigit) (replace 44 [46] (replace 32 [] entry)).

(** The non-blank lines of a text, trimmed. *)
Definition trimmed_lines (text : pystr) : list pystr :=
  List.map strip
    (List.filter (fun entry => negb (pystr_eqb (strip entry) [])) (splitlines text)).

(** The key a lookup uses: the first three characters of the trimmed string
    form (the whole of it when it is shorter). *)
Definition lookup_key (account_num : value) : pystr :=
  take 3 (strip (py_str account_num)).

(** The table entry an identifier selects, if any; [None] selects none. *)
Definition template_of (lookup_table : gmap pystr loc) (account_num : value)
  : option loc :=
  match account_num with
  | PyNone => None
  | _ => lookup_table !! lookup_key account_num
  end.

(** The record of an identifier that selects no entry. *)
Definition default_record (account_num : value) : record :=
  match account_num with
  | PyNone => repeat PyNone 13
  | _ => <[2%nat := PyStr (strip (py_str account_num))]> (repeat PyNone 13)
  end.

(** The rows of the written file (none when no file was written). *)
Definition csv_rows (st : State) : list record :=
  match csv_file st with
  | Some (_, (_, rows)) => rows
  | None => []
  end.

(** [c] run from [st] returns normally, with a result and a final state that
    satisfy [Q]. *)
Definition returns {A} (c : M A) (st : State) (Q : A -> State -> Prop) : Prop :=
  exists a st', c st = (inr a, st') /\ Q a st'.

(** [r] has 13 fields and is [t] outside the two fields the row loop assigns. *)
Definition agrees_off (t r : record) : Prop :=
  length r = 13%nat /\ forall j : nat, j <> 10%nat -> j <> 11%nat -> r !! j = t !! j.

(** [r] has 13 fields, all [None] outside the account-number field and the
    two fields the row loop assigns. *)
Definition blank_off (r : record) : Prop :=
  length r = 13%nat
  /\ forall j : nat, (j < 13)%nat -> j <> 2%nat -> j <> 10%nat -> j <> 11%nat ->
       r !! j = Some PyNone.

(** The shape of the heap while [main] runs: the two lists of LOOKUP_TABLE at
    0 and 1, and above them the lists the lookups allocated. *)
Definition heap_ok (h : list record) : Prop :=
  (exists r0, h !! 0%nat = Some r0 /\ agrees_off template_193 r0)
  /\ (exists r1, h !! 1%nat = Some r1 /\ agrees_off template_100 r1)
  /\ forall (l : nat) (r : record), (2 <= l)%nat -> h !! l = Some r -> blank_off r.

(** The frame of a step of [main]: the heap keeps its shape and its size may
    only grow; nothing is printed and no file is written. *)
Definition quiet_step (st st' : State) : Prop :=
  heap_ok (heap st') /\ (length (heap st) <= length (heap st'))%nat
  /\ stdout st' = stdout st /\ csv_file st' = csv_file st.

(** A step that may print but leaves the heap and the file system alone. *)
Definition same_store (st st' : State) : Prop :=
  heap st' = heap st /\ csv_file st' = csv_file st.

(** [main] has built the combined identifiers [ids] for its input and
    assembled the row lists [rows] from them, leaving the state [st]: its
    sections 1 to 4 have run. *)
Definition assembled (isdigit : char -> bool) (w : World)
  (ids : list value) (rows : list loc) (st : State) : Prop :=
  exists q p st1,
    main_inputs isdigit w initial_state = (inr (q, p, ids), st1)
    /\ main_rows q p ids st1 = (inr rows, st).

(** The list a lookup returns for row [i]: the table's own list when the
    identifier selects one, a list allocated above the table otherwise.  Rows
    past the end of [ids] have the absent identifier. *)
Definition row_loc (ids : list value) (i : nat) (l : loc) : Prop :=
  match template_of LOOKUP_TABLE (nth i ids PyNone) with
  | Some t => l = t
  | None => (2 <= l)%nat
  end.

(** The shape of the output row of an identifier. *)
Definition row_shape (account_num : value) (r : record) : Prop :=
  length r = 13%nat
  /\ match template_of LOOKUP_TABLE account_num with
     | Some t =>
         (t = 0%nat /\ agrees_off template_193 r)
         \/ (t = 1%nat /\ agrees_off template_100 r)
     | None => blank_off r
     end.

(** A digit table cut down to the ASCII digits below 128. *)
Definition ascii_below_128 (isdigit : char -> bool) (c : char) : bool :=
  if c <? 128 then ascii_isdigit c else isdigit c.

(** The lines one page contributes for a rectangle. *)
Definition textbox_lines (page : Page) (rect : Rect) : list pystr :=
  match get_textbox page rect with
  | inr t => splitlines (strip t)
  | inl _ => []
  end.

(** The pages a scan of [num_pages] pages reads: the first [num_pages] of the
    document, or all of it when it is shorter. *)
Definition scanned_pages (doc : list Page) (num_pages : Z) : list Page :=
  take (Z.to_nat num_pages) doc.

(** The dict [extract_pdf_data] starts from: every rectangle name with the
    empty list. *)
Definition no_lines (rectangles : list (pystr * Rect)) : gmap pystr (list pystr) :=
  list_to_map (List.map (fun kr => (fst kr, [])) rectangles).

(** The record of row [i] when its identifier selects no table entry: the
    default record with the row's own quantity and cost basis ([None] past the
    end of a sequence). *)
Definition own_row (q p a : list value) (i : nat) : record :=
  <[11%nat := nth i p PyNone]>
    (<[10%nat := nth i q PyNone]> (default_record (nth i a PyNone))).

(** What the rows at [indices] make of the table list [t] that starts as [r]:
    every row whose identifier selects [t] assigns its quantity and cost basis
    to it, in order. *)
Definition table_after (q p a : list value) (t : loc) (indices : list nat)
  (r : record) : record :=
  fold_left
    (fun r i =>
       if bool_decide (template_of LOOKUP_TABLE (nth i a PyNone) = Some t)
       then <[11%nat := nth i p PyNone]> (<[10%nat := nth i q PyNone]> r)
       else r)
    indices r.

(** The list literal LOOKUP_TABLE holds at address [t]. *)
Definition table_literal (t : loc) : record :=
  match t with
  | O => template_193
  | _ => template_100
  end.

(** * Properties *)

Local Close Scope N_scope.
Local Open Scope nat_scope.

(** ** Monad bookkeeping *)

Lemma bind_ret_r {A B} (c : M A) (k : A -> M B) (st st' : State) (a : A) :
  c st = (inr a, st') -> bind c k st = k a st'.
Proof. intros H. unfold bind. rewrite H. reflexivity. Qed.

Lemma bind_raise_r {A B} (c : M A) (k : A -> M B) (st st' : State) (e : exn) :
  c st = (inl e, st') -> bind c k st = (inl e, st').
Proof. intros H. unfold bind. rewrite H. reflexivity. Qed.

(** ** The aligner *)

Lemma max_len_fold (rest : list (list value)) (m : nat) :
  fold_left (fun m lst => Nat.max m (length lst)) rest m
  = Nat.max m (max_list (length <$> rest)).
Proof.
  revert m. induction rest as [|lst rest IH]; intros m; simpl.
  - lia.
  - rewrite IH. symmetry. apply Nat.max_assoc.
Qed.

Lemma max_len_max_list (first : list value) (rest : list (list value)) :
  max_len first rest = max_list (length <$> first :: rest).
Proof. unfold max_len. rewrite max_len_fold. reflexivity. Qed.

Lemma pad_fold (m : nat) (lists acc : list (list value)) :
  fold_left (fun padded_lists lst => padded_lists ++ [lst ++ repeat PyNone (m - length lst)])
    lists acc
  = acc ++ ((fun lst => lst ++ repeat PyNone (m - length lst)) <$> lists).
Proof.
  revert acc. induction lists as [|lst lists IH]; intros acc; simpl.
  - by rewrite app_nil_r.
  - rewrite IH. by rewrite <- app_assoc.
Qed.

Lemma combine_and_pad_lists_map (lists : list (list value)) :
  combine_and_pad_lists lists
  = (fun lst => lst ++ repeat PyNone (max_list (length <$> lists) - length lst)) <$> lists.
Proof.
  destruct lists as [|first rest]; [reflexivity|].
  unfold combine_and_pad_lists. rewrite pad_fold, max_len_max_list. reflexivity.
Qed.

Lemma max_list_length_bound (lists : list (list value)) (lst : list value) :
  lst ∈ lists -> length lst <= max_list (length <$> lists).
Proof.
  intros H. apply max_list_elem_of_le. apply list_elem_of_fmap. eauto.
Qed.

(** C7: padding keeps the number of sequences, extends each one on the right
    with [None] up to the maximum of the input lengths, maps the empty list to
    the empty list, and pads [[1,2],[1],[1,2,3]] as the specification says. *)
Theorem combine_and_pad_lists_pads :
  combine_and_pad_lists [] = []
  /\ (forall lists : list (list value),
        let max_length := max_list (length <$> lists) in
        length (combine_and_pad_lists lists) = length lists
        /\ combine_and_pad_lists lists
           = (fun lst => lst ++ repeat PyNone (max_length - length lst)) <$> lists
        /\ Forall (fun lst => length lst = max_length) (combine_and_pad_lists lists)
        /\ Forall (fun lst => length lst <= max_length) lists)
  /\ combine_and_pad_lists
       [[PyInt 1; PyInt 2]; [PyInt 1]; [PyInt 1; PyInt 2; PyInt 3]]
     = [[PyInt 1; PyInt 2; PyNone]; [PyInt 1; PyNone; PyNone];
        [PyInt 1; PyInt 2; PyInt 3]].
Proof.
  split; [reflexivity|]. split; [|reflexivity].
  intros lists max_length.
  assert (Hle : Forall (fun lst => length lst <= max_length) lists).
  { apply Forall_forall. intros lst Hin. by apply max_list_length_bound. }
  rewrite combine_and_pad_lists_map. fold max_length.
  repeat split; [by rewrite length_fmap| |done].
  apply Forall_fmap. eapply Forall_impl; [exact Hle|].
  intros lst Hlst. unfold compose. cbv beta in Hlst.
  rewrite length_app, repeat_length. lia.
Qed.

(** ** Strings *)

Ltac chars :=
  unfold isspace, is_linebreak, ascii_isdigit in *;
  repeat match goal with
  | H : _ = false |- _ => apply not_true_iff_false in H
  | |- _ = false => apply not_true_iff_false
  end;
  repeat match goal with
  | H : context [_ = true] |- _ =>
      progress rewrite ?orb_true_iff, ?andb_true_iff, ?N.leb_le, ?N.eqb_eq in H
  end;
  rewrite ?orb_true_iff, ?andb_true_iff, ?N.leb_le, ?N.eqb_eq;
  lia.

Lemma linebreak_isspace (c : char) : is_linebreak c = true -> isspace c = true.
Proof. intros H. chars. Qed.

Lemma not_space_not_linebreak (c : char) : isspace c = false -> is_linebreak c = false.
Proof.
  intros H. destruct (is_linebreak c) eqn:E; [|reflexivity].
  apply linebreak_isspace in E. congruence.
Qed.

(** The set literal of the allowlist holds the strings ".", "€" and "EUR": a
    one-character string equals the first two only. *)
Lemma in_allowlist (c : char) :
  in_set [c] [u "."; u "€"; u "EUR"] = ((c =? 46) || (c =? 8364))%N.
Proof.
  change (u ".") with [46%N]. change (u "€") with [8364%N].
  change (u "EUR") with [69%N; 85%N; 82%N].
  unfold in_set, pystr_eqb; simpl.
  rewrite orb_false_r.
  destruct (N.eqb_spec c 46) as [->|H1]; [reflexivity|].
  destruct (N.eqb_spec c 8364) as [->|H2]; [reflexivity|].
  rewrite !bool_decide_eq_false_2 by congruence. reflexivity.
Qed.

Lemma lstrip_id (s : pystr) :
  Forall (fun c => isspace c = false) s -> lstrip s = s.
Proof. destruct 1 as [|c r Hc Hr]; simpl; [reflexivity|]. by rewrite Hc. Qed.

Lemma strip_id (s : pystr) :
  Forall (fun c => isspace c = false) s -> strip s = s.
Proof.
  intros H. unfold strip, rstrip. rewrite (lstrip_id s H).
  rewrite lstrip_id; [apply rev_involutive|]. by apply Forall_rev.
Qed.

Lemma replace_id (old : char) (new s : pystr) :
  Forall (fun c => c <> old) s -> replace old new s = s.
Proof.
  unfold replace. induction 1 as [|c r Hc Hr IH]; simpl; [reflexivity|].
  apply N.eqb_neq in Hc. rewrite Hc. simpl. by rewrite IH.
Qed.

Lemma filter_id {A} (f : A -> bool) (l : list A) :
  Forall (fun x => f x = true) l -> List.filter f l = l.
Proof. induction 1 as [|x l Hx Hl IH]; simpl; [reflexivity|]. by rewrite Hx, IH. Qed.

Lemma filter_Forall {A} (f : A -> bool) (l : list A) :
  Forall (fun x => f x = true) (List.filter f l).
Proof.
  induction l as [|x l IH]; simpl; [constructor|].
  destruct (f x) eqn:E; [by constructor|done].
Qed.

Lemma splitlines_from_nobreak (e cur r : pystr) :
  Forall (fun c => is_linebreak c = false) e ->
  splitlines_from cur (e ++ r) = splitlines_from (cur ++ e) r.
Proof.
  intros H. revert cur. induction H as [|c e Hc He IH]; intros cur; simpl.
  - by rewrite app_nil_r.
  - assert ((c =? 13)%N = false) as -> by chars.
    rewrite Hc, IH. by rewrite <- app_assoc.
Qed.

(** A text without line boundaries is one line (none when it is empty). *)
Lemma splitlines_nobreak (e : pystr) :
  Forall (fun c => is_linebreak c = false) e ->
  splitlines e = match e with [] => [] | _ => [e] end.
Proof.
  intros H. unfold splitlines.
  rewrite <- (app_nil_r e) at 1. rewrite splitlines_from_nobreak by done.
  simpl. reflexivity.
Qed.

(** Lines joined by a line feed split back into the same lines. *)
Lemma splitlines_join (es : list pystr) :
  Forall (fun e => e <> [] /\ Forall (fun c => is_linebreak c = false) e) es ->
  splitlines (join [10%N] es) = es.
Proof.
  induction 1 as [|e es [Hne He] Hes IH]; [reflexivity|].
  destruct es as [|e' es'].
  - simpl. rewrite splitlines_nobreak by done. by destruct e.
  - change (join [10%N] (e :: e' :: es')) with (e ++ [10%N] ++ join [10%N] (e' :: es')).
    unfold splitlines in *. rewrite splitlines_from_nobreak by done.
    cbn [splitlines_from app].
    change (10 =? 13)%N with false. change (is_linebreak 10%N) with true.
    cbv iota. by rewrite IH.
Qed.

(** ** The text normalizer *)

Section CleaningFacts.

Variable isdigit : char -> bool.

Lemma kept_allowlist (c : char) :
  (isdigit c || in_set [c] [u "."; u "€"; u "EUR"]) = kept isdigit c.
Proof. rewrite in_allowlist. unfold kept. by rewrite orb_assoc. Qed.

Lemma normalize_line_filter (entry : pystr) :
  List.filter (fun c => isdigit c || in_set [c] [u "."; u "€"; u "EUR"])
    (replace 44%N (u ".") (replace 32%N [] entry))
  = normalize_line isdigit entry.
Proof.
  unfold normalize_line. change (u ".") with [46%N].
  apply filter_ext. intros c. apply kept_allowlist.
Qed.

Lemma clean_fold (lines acc : list pystr) :
  fold_left
    (fun cleaned entry =>
       let entry := replace 44%N (u ".") (replace 32%N [] entry) in
       let entry :=
         List.filter (fun c => isdigit c || in_set [c] [u "."; u "€"; u "EUR"]) entry in
       if existsb isdigit entry then cleaned ++ [entry] else cleaned)
    lines acc
  = acc ++ flat_map
             (fun entry =>
                if existsb isdigit (normalize_line isdigit entry)
                then [normalize_line isdigit entry] else [])
             lines.
Proof.
  revert acc. induction lines as [|entry lines IH]; intros acc; simpl.
  - by rewrite app_nil_r.
  - rewrite IH, normalize_line_filter.
    destruct (existsb isdigit (normalize_line isdigit entry)); simpl.
    + by rewrite <- app_assoc.
    + reflexivity.
Qed.

(** The numeric path as a comprehension over the trimmed lines. *)
Lemma clean_numeric (text : pystr) :
  clean_extracted_text isdigit text false
  = flat_map
      (fun entry =>
         if existsb isdigit (normalize_line isdigit entry)
         then [normalize_line isdigit entry] else [])
      (trimmed_lines text).
Proof.
  destruct text as [|c r]; [reflexivity|].
  unfold clean_extracted_text. fold (trimmed_lines (c :: r)).
  by rewrite clean_fold.
Qed.

(** The account path returns the trimmed lines. *)
Lemma clean_account (text : pystr) :
  clean_extracted_text isdigit text true = trimmed_lines text.
Proof. by destruct text. Qed.

(** Every entry of the numeric path is a normalized line with a digit. *)
Lemma clean_numeric_entries (text : pystr) :
  Forall
    (fun entry => existsb isdigit entry = true /\ Forall (fun c => kept isdigit c = true) entry)
    (clean_extracted_text isdigit text false).
Proof.
  rewrite clean_numeric. induction (trimmed_lines text) as [|l ls IH]; simpl; [constructor|].
  apply Forall_app. split; [|exact IH].
  destruct (existsb isdigit (normalize_line isdigit l)) eqn:E; [|constructor].
  constructor; [|constructor]. split; [exact E|apply filter_Forall].
Qed.

End CleaningFacts.

Lemma existsb_pointwise {A} (f g : A -> bool) (l : list A) :
  (forall x, f x = g x) -> existsb f l = existsb g l.
Proof. intros H. induction l as [|x l IH]; simpl; [reflexivity|]. by rewrite H, IH. Qed.

(** The normalizer depends on the digit table pointwise. *)
Lemma clean_extracted_text_ext (d1 d2 : char -> bool) (text : pystr) (b : bool) :
  (forall c, d1 c = d2 c) ->
  clean_extracted_text d1 text b = clean_extracted_text d2 text b.
Proof.
  intros H. destruct b; [by rewrite !clean_account|].
  rewrite !clean_numeric. apply flat_map_ext. intros entry.
  assert (normalize_line d1 entry = normalize_line d2 entry) as ->.
  { unfold normalize_line. apply filter_ext. intros c. unfold kept. by rewrite H. }
  by rewrite (existsb_pointwise d1 d2).
Qed.

Section Idempotence.

Variable isdigit : char -> bool.

(** What the proof needs of the digit table: no digit is a whitespace
    character, and the comma is not a digit. *)
Hypothesis digit_not_space : forall c, isdigit c = true -> isspace c = false.
Hypothesis comma_not_digit : isdigit 44%N = false.

Lemma kept_not_space (c : char) : kept isdigit c = true -> isspace c = false.
Proof.
  unfold kept. intros H.
  destruct (isdigit c) eqn:E; [by apply digit_not_space|].
  simpl in H. chars.
Qed.

Lemma kept_not_comma (c : char) : kept isdigit c = true -> c <> 44%N.
Proof.
  unfold kept. intros H ->. rewrite comma_not_digit in H. discriminate H.
Qed.

Lemma kept_not_blank (c : char) : kept isdigit c = true -> c <> 32%N.
Proof. intros H ->. apply kept_not_space in H. discriminate H. Qed.

(** A normalized line is a fixed point of the loop body. *)
Lemma normalize_line_id (entry : pystr) :
  Forall (fun c => kept isdigit c = true) entry ->
  normalize_line isdigit entry = entry.
Proof.
  intros H. unfold normalize_line.
  rewrite (replace_id 32%N), (replace_id 44%N), filter_id; try done.
  - eapply Forall_impl; [exact H|]. apply kept_not_comma.
  - eapply Forall_impl; [exact H|]. apply kept_not_blank.
Qed.

Lemma trimmed_lines_join (es : list pystr) :
  Forall (fun e => existsb isdigit e = true /\ Forall (fun c => kept isdigit c = true) e) es ->
  trimmed_lines (join [10%N] es) = es.
Proof.
  intros H. unfold trimmed_lines.
  assert (Hsp : Forall (fun e => e <> [] /\ Forall (fun c => isspace c = false) e) es).
  { eapply Forall_impl; [exact H|]. intros e [Hd Hk]. split.
    - intros ->. discriminate Hd.
    - eapply Forall_impl; [exact Hk|]. apply kept_not_space. }
  rewrite splitlines_join.
  2:{ eapply Forall_impl; [exact Hsp|]. intros e [Hne Hs]. split; [done|].
      eapply Forall_impl; [exact Hs|]. apply not_space_not_linebreak. }
  clear H. induction Hsp as [|e es [Hne Hs] Hes IH]; [reflexivity|].
  cbn [List.filter]. rewrite (strip_id e Hs). unfold pystr_eqb at 1.
  rewrite bool_decide_eq_false_2 by done. cbn [negb List.map].
  rewrite (strip_id e Hs). by rewrite IH.
Qed.

Lemma clean_entries_fixed (es : list pystr) :
  Forall (fun e => existsb isdigit e = true /\ Forall (fun c => kept isdigit c = true) e) es ->
  clean_extracted_text isdigit (join [10%N] es) false = es.
Proof.
  intros H. rewrite clean_numeric, trimmed_lines_join by done.
  induction H as [|e es [Hd Hk] Hes IH]; [reflexivity|].
  simpl. rewrite (normalize_line_id e Hk), Hd. simpl. by rewrite IH.
Qed.

(** C9: the numeric-cleaning path is idempotent.  Cleaning the line-joined
    output of a cleaning returns that output, and every output entry cleaned
    again is returned unchanged as a singleton. *)
Theorem clean_extracted_text_idempotent (x : pystr) :
  clean_extracted_text isdigit
    (join [10%N] (clean_extracted_text isdigit x false)) false
  = clean_extracted_text isdigit x false
  /\ Forall (fun entry => clean_extracted_text isdigit entry false = [entry])
       (clean_extracted_text isdigit x false).
Proof.
  pose proof (clean_numeric_entries isdigit x) as H. split.
  - by apply clean_entries_fixed.
  - eapply Forall_impl; [exact H|]. intros e He.
    apply (clean_entries_fixed [e]). by constructor.
Qed.

End Idempotence.

(** ** Account lookup *)

Lemma take_3_prefix (s : pystr) :
  (if (3 <=? length s)%nat then take 3 s else s) = take 3 s.
Proof.
  destruct (Nat.leb_spec 3 (length s)); [reflexivity|].
  symmetry. apply take_ge. lia.
Qed.

Lemma setitem_fresh (h : list record) (out : list Output) csv (r : record)
  (i : nat) (v : value) :
  i < length r ->
  setitem (length h) i v (mkState (h ++ [r]) out csv)
  = (inr tt, mkState (h ++ [<[i := v]> r]) out csv).
Proof.
  intros Hi. unfold setitem, bind, read_list. cbn [heap stdout csv_file].
  rewrite list_lookup_middle by reflexivity.
  apply Nat.ltb_lt in Hi. rewrite Hi. f_equal. f_equal. cbn [heap].
  rewrite insert_app_r_alt by lia. by rewrite Nat.sub_diag.
Qed.

(** What one lookup does: it always allocates the 13-[None] list; it returns
    the table's own list when the key is found, the fresh one otherwise. *)
Lemma lookup_account_info_run (account_num : value) (lookup_table : gmap pystr loc)
  (st : State) :
  lookup_account_info account_num lookup_table st
  = (inr (default (length (heap st)) (template_of lookup_table account_num)),
     mkState
       (heap st ++ [match template_of lookup_table account_num with
                    | Some _ => repeat PyNone 13
                    | None => default_record account_num
                    end])
       (stdout st) (csv_file st)).
Proof.
  unfold lookup_account_info, bind, new_list, template_of, lookup_key.
  destruct account_num as [|s|z]; [reflexivity| |];
    cbv zeta; rewrite take_3_prefix;
    (destruct (lookup_table !! take 3 (strip (py_str _))) as [t|] eqn:E;
     [reflexivity|]);
    simpl heap; simpl stdout; simpl csv_file;
    rewrite setitem_fresh by (simpl; lia); reflexivity.
Qed.

(** C6: a lookup that selects no table entry returns a fresh 13-field record.
    For the absent identifier every field is [None]; for an identifier whose
    3-character prefix (the whole trimmed string when shorter) is not a key,
    every field is [None] except field 2, the trimmed string form. *)
Theorem lookup_account_info_default (account_num : value)
  (lookup_table : gmap pystr loc) (st : State) :
  account_num = PyNone \/ lookup_table !! take 3 (strip (py_str account_num)) = None ->
  exists r : record,
    lookup_account_info account_num lookup_table st
    = (inr (length (heap st)), mkState (heap st ++ [r]) (stdout st) (csv_file st))
    /\ length r = 13
    /\ r = [PyNone; PyNone;
            match account_num with
            | PyNone => PyNone
            | _ => PyStr (strip (py_str account_num))
            end;
            PyNone; PyNone; PyNone; PyNone; PyNone; PyNone; PyNone; PyNone; PyNone;
            PyNone].
Proof.
  intros H. rewrite lookup_account_info_run.
  assert (template_of lookup_table account_num = None) as ->.
  { destruct H as [->|H]; [reflexivity|]. by destruct account_num. }
  eexists. split; [reflexivity|]. by destruct account_num.
Qed.

(** The default-record theorem on LOOKUP_TABLE, at "999999" and at [None]. *)
Lemma lookup_account_info_default_witness :
  (exists r : record,
     lookup_account_info (PyStr (u "999999")) LOOKUP_TABLE initial_state
     = (inr 2, mkState ([template_193; template_100] ++ [r]) [] None)
     /\ length r = 13
     /\ r = [PyNone; PyNone; PyStr (u "999999");
             PyNone; PyNone; PyNone; PyNone; PyNone; PyNone; PyNone; PyNone; PyNone;
             PyNone])
  /\ (exists r : record,
        lookup_account_info PyNone LOOKUP_TABLE initial_state
        = (inr 2, mkState ([template_193; template_100] ++ [r]) [] None)
        /\ length r = 13
        /\ r = [PyNone; PyNone; PyNone;
                PyNone; PyNone; PyNone; PyNone; PyNone; PyNone; PyNone; PyNone; PyNone;
                PyNone]).
Proof.
  split.
  - apply (lookup_account_info_default (PyStr (u "999999")) LOOKUP_TABLE initial_state).
    right. vm_compute. reflexivity.
  - apply (lookup_account_info_default PyNone LOOKUP_TABLE initial_state).
    left. reflexivity.
Defined.

(** ** Running the monad *)

Lemma returns_ret {A} (a : A) (st : State) (Q : A -> State -> Prop) :
  Q a st -> returns (ret a) st Q.
Proof. intros H. by exists a, st. Qed.

Lemma returns_bind {A B} (c : M A) (k : A -> M B) (st : State)
  (Q : B -> State -> Prop) :
  returns c st (fun a st' => returns (k a) st' Q) -> returns (bind c k) st Q.
Proof.
  intros (a & st' & Hc & b & st'' & Hk & HQ).
  exists b, st''. split; [|exact HQ]. by rewrite (bind_ret_r _ _ _ _ _ Hc).
Qed.

Lemma returns_mono {A} (c : M A) (st : State) (P Q : A -> State -> Prop) :
  returns c st P -> (forall a st', P a st' -> Q a st') -> returns c st Q.
Proof. intros (a & st' & Hc & HP) H. exists a, st'. eauto. Qed.

Lemma returns_eq {A} (c : M A) (st st' : State) (a : A) (Q : A -> State -> Prop) :
  c st = (inr a, st') -> Q a st' -> returns c st Q.
Proof. intros Hc HQ. by exists a, st'. Qed.

Lemma returns_print (s : pystr) (st : State) (Q : unit -> State -> Prop) :
  Q tt (mkState (heap st) (stdout st ++ [Line s]) (csv_file st)) ->
  returns (print s) st Q.
Proof. intros H. by eapply returns_eq. Qed.

Lemma returns_index {A} (lst : list A) (i : nat) (x : A) (st : State)
  (Q : A -> State -> Prop) :
  lst !! i = Some x -> Q x st -> returns (index lst i) st Q.
Proof. intros Hx HQ. eapply returns_eq; [|exact HQ]. unfold index. by rewrite Hx. Qed.

Lemma getitem_run (l : loc) (i : nat) (r : record) (v : value) (st : State) :
  heap st !! l = Some r -> r !! i = Some v -> getitem l i st = (inr v, st).
Proof. intros Hr Hv. unfold getitem, bind, read_list. by rewrite Hr, Hv. Qed.

Lemma setitem_run (l : loc) (i : nat) (r : record) (v : value) (st : State) :
  heap st !! l = Some r -> i < length r ->
  setitem l i v st
  = (inr tt, mkState (<[l := <[i := v]> r]> (heap st)) (stdout st) (csv_file st)).
Proof.
  intros Hr Hi. unfold setitem, bind, read_list. rewrite Hr.
  apply Nat.ltb_lt in Hi. by rewrite Hi.
Qed.

(** ** The heap of [main] *)

Lemma LOOKUP_TABLE_lookup (key : pystr) (t : loc) :
  LOOKUP_TABLE !! key = Some t ->
  (key = u "193" /\ t = 0) \/ (key = u "100" /\ t = 1).
Proof.
  unfold LOOKUP_TABLE. rewrite lookup_insert_Some, lookup_singleton_Some.
  intros [[<- <-]|[_ [<- <-]]]; auto.
Qed.

Lemma template_of_range (account_num : value) (t : loc) :
  template_of LOOKUP_TABLE account_num = Some t -> t = 0 \/ t = 1.
Proof.
  unfold template_of. destruct account_num; [done| |];
    intros H; apply LOOKUP_TABLE_lookup in H; tauto.
Qed.

Lemma agrees_off_refl (t : record) : length t = 13 -> agrees_off t t.
Proof. by split. Qed.

Lemma agrees_off_set (t r : record) (i : nat) (v : value) :
  i = 10 \/ i = 11 -> agrees_off t r -> agrees_off t (<[i := v]> r).
Proof.
  intros Hi [Hlen H]. split; [by rewrite length_insert|].
  intros j H10 H11. rewrite list_lookup_insert_ne by lia. by apply H.
Qed.

Lemma blank_off_set (r : record) (i : nat) (v : value) :
  i = 2 \/ i = 10 \/ i = 11 -> blank_off r -> blank_off (<[i := v]> r).
Proof.
  intros Hi [Hlen H]. split; [by rewrite length_insert|].
  intros j Hj H2 H10 H11. rewrite list_lookup_insert_ne by lia. by apply H.
Qed.

Lemma blank_off_nones : blank_off (repeat PyNone 13).
Proof.
  split; [reflexivity|]. intros j Hj _ _ _.
  do 13 (destruct j as [|j]; [reflexivity|]). lia.
Qed.

Lemma blank_off_default (account_num : value) : blank_off (default_record account_num).
Proof.
  destruct account_num; [apply blank_off_nones| |];
    (apply blank_off_set; [by left|apply blank_off_nones]).
Qed.

Lemma heap_ok_initial : heap_ok (heap initial_state).
Proof.
  split; [|split].
  - exists template_193. split; [reflexivity|]. by apply agrees_off_refl.
  - exists template_100. split; [reflexivity|]. by apply agrees_off_refl.
  - intros l r Hl Hr. simpl in Hr.
    destruct l as [|[|l]]; [lia|lia|]. done.
Qed.

Lemma heap_ok_length (h : list record) : heap_ok h -> 2 <= length h.
Proof.
  intros (_ & (r1 & H1 & _) & _). apply lookup_lt_Some in H1. lia.
Qed.

Lemma heap_ok_fields (h : list record) (l : loc) (r : record) :
  heap_ok h -> h !! l = Some r ->
  length r = 13 /\ (agrees_off template_193 r \/ agrees_off template_100 r \/ blank_off r).
Proof.
  intros ((r0 & H0 & A0) & (r1 & H1 & A1) & Hb) Hr.
  destruct l as [|[|l]].
  - assert (r = r0) as -> by congruence. split; [apply A0|by left].
  - assert (r = r1) as -> by congruence. split; [apply A1|by right; left].
  - assert (blank_off r) as B by (eapply Hb; [|exact Hr]; lia).
    split; [apply B|by right; right].
Qed.

Lemma heap_ok_alloc (h : list record) (d : record) :
  heap_ok h -> blank_off d -> heap_ok (h ++ [d]).
Proof.
  intros Hok Hd. pose proof (heap_ok_length h Hok) as Hlen.
  destruct Hok as ((r0 & H0 & A0) & (r1 & H1 & A1) & Hb).
  split; [|split].
  - exists r0. split; [by apply lookup_app_l_Some|done].
  - exists r1. split; [by apply lookup_app_l_Some|done].
  - intros l r Hl Hr. apply lookup_app_Some in Hr as [Hr|[_ Hr]]; [by eapply Hb|].
    apply list_lookup_singleton_Some in Hr as [_ <-]. exact Hd.
Qed.

Lemma heap_ok_set (h : list record) (l : loc) (r : record) (i : nat) (v : value) :
  heap_ok h -> h !! l = Some r -> i = 10 \/ i = 11 ->
  heap_ok (<[l := <[i := v]> r]> h).
Proof.
  intros Hok Hr Hi. pose proof (lookup_lt_Some _ _ _ Hr) as Hl.
  destruct Hok as ((r0 & H0 & A0) & (r1 & H1 & A1) & Hb).
  split; [|split].
  - destruct (decide (l = 0)) as [->|Hne].
    + exists (<[i := v]> r). split; [by apply list_lookup_insert_eq|].
      apply agrees_off_set; [done|]. by simplify_eq.
    + exists r0. split; [by rewrite list_lookup_insert_ne|done].
  - destruct (decide (l = 1)) as [->|Hne].
    + exists (<[i := v]> r). split; [by apply list_lookup_insert_eq|].
      apply agrees_off_set; [done|]. by simplify_eq.
    + exists r1. split; [by rewrite list_lookup_insert_ne|done].
  - intros l' r' Hl' Hr'. destruct (decide (l = l')) as [->|Hne].
    + rewrite list_lookup_insert_eq in Hr' by done. injection Hr' as <-.
      apply blank_off_set; [tauto|]. by eapply Hb.
    + rewrite list_lookup_insert_ne in Hr' by done. by eapply Hb.
Qed.

(** ** The row loop *)

Lemma lookup_account_info_returns (account_num : value) (st : State) :
  heap_ok (heap st) ->
  returns (lookup_account_info account_num LOOKUP_TABLE) st
    (fun l st' =>
       quiet_step st st' /\ l < length (heap st')
       /\ l = default (length (heap st)) (template_of LOOKUP_TABLE account_num)).
Proof.
  intros Hok. eapply returns_eq; [apply lookup_account_info_run|].
  pose proof (heap_ok_length _ Hok) as Hlen.
  unfold quiet_step. cbn [heap stdout csv_file]. rewrite length_app. cbn [length].
  split_and!; try done; try lia.
  - apply heap_ok_alloc; [done|].
    destruct (template_of LOOKUP_TABLE account_num);
      [apply blank_off_nones|apply blank_off_default].
  - destruct (template_of LOOKUP_TABLE account_num) as [t|] eqn:E; simpl; [|lia].
    apply template_of_range in E. lia.
Qed.

Lemma guarded_setitem_returns (lst : list value) (i j : nat) (l : loc) (st : State) :
  j = 10 \/ j = 11 -> heap_ok (heap st) -> l < length (heap st) ->
  returns
    (if i <? length lst then bind (index lst i) (fun v => setitem l j v) else ret tt)
    st
    (fun _ st' => quiet_step st st' /\ length (heap st') = length (heap st)).
Proof.
  intros Hj Hok Hl.
  destruct (Nat.ltb_spec i (length lst)) as [Hi|Hi].
  - destruct (lookup_lt_is_Some_2 lst i Hi) as [v Hv].
    destruct (lookup_lt_is_Some_2 (heap st) l Hl) as [r Hr].
    destruct (heap_ok_fields _ _ _ Hok Hr) as [Hlen _].
    apply returns_bind. eapply returns_index; [exact Hv|].
    eapply returns_eq; [apply (setitem_run l j r); [done|lia]|].
    unfold quiet_step. cbn [heap stdout csv_file]. rewrite length_insert.
    split_and!; try done. by apply heap_ok_set.
  - apply returns_ret. unfold quiet_step. by split_and!.
Qed.

Lemma assemble_rows_returns (indices : list nat) (q p a : list value)
  (acc : list loc) (st : State) :
  heap_ok (heap st) ->
  Forall (fun i => i < length a) indices ->
  Forall (fun l => l < length (heap st)) acc ->
  returns (assemble_rows indices q p a acc) st
    (fun rows st' =>
       quiet_step st st'
       /\ Forall (fun l => l < length (heap st')) rows
       /\ exists new, rows = acc ++ new /\ Forall2 (row_loc a) indices new).
Proof.
  intros Hok Hidx. revert acc st Hok.
  induction Hidx as [|i indices Hi Hidx IH]; intros acc st Hok Hacc.
  - apply returns_ret. unfold quiet_step. split_and!; try done.
    exists []. split; [by rewrite app_nil_r|constructor].
  - cbn [assemble_rows].
    destruct (lookup_lt_is_Some_2 a i Hi) as [account_id Hid].
    apply returns_bind. eapply returns_index; [exact Hid|].
    apply returns_bind.
    eapply returns_mono; [by apply lookup_account_info_returns|].
    intros l st1 ((Hok1 & Hlen1 & Hout1 & Hcsv1) & Hl & Hloc).
    apply returns_bind.
    eapply returns_mono; [apply guarded_setitem_returns; [by left|done|done]|].
    intros [] st2 ((Hok2 & _ & Hout2 & Hcsv2) & Hlen2).
    apply returns_bind.
    eapply returns_mono;
      [apply guarded_setitem_returns; [by right|done|by rewrite Hlen2]|].
    intros [] st3 ((Hok3 & _ & Hout3 & Hcsv3) & Hlen3).
    eapply returns_mono.
    { apply IH; [done|]. apply Forall_app. split.
      - eapply Forall_impl; [exact Hacc|]. intros l' Hl'. cbv beta in Hl'. lia.
      - constructor; [lia|constructor]. }
    intros rows st4 ((Hok4 & Hlen4 & Hout4 & Hcsv4) & Hrows & new & -> & Hnew).
    unfold quiet_step. split_and!; try done; try congruence; try lia.
    exists (l :: new). split; [by rewrite <- app_assoc|].
    constructor; [|done]. unfold row_loc.
    rewrite (nth_lookup_Some _ _ _ _ Hid).
    pose proof (heap_ok_length _ Hok).
    destruct (template_of LOOKUP_TABLE account_id); simpl in Hloc; lia.
Qed.

Lemma combine_and_pad_lists_three (q p a : list value) :
  exists q' p' a',
    combine_and_pad_lists [q; p; a] = [q'; p'; a']
    /\ length q' = max_list [length q; length p; length a]
    /\ length p' = max_list [length q; length p; length a]
    /\ length a' = max_list [length q; length p; length a]
    /\ q' = q ++ repeat PyNone (length q' - length q)
    /\ p' = p ++ repeat PyNone (length p' - length p)
    /\ a' = a ++ repeat PyNone (length a' - length a).
Proof.
  rewrite combine_and_pad_lists_map.
  change (length <$> [q; p; a]) with [length q; length p; length a].
  set (m := max_list [length q; length p; length a]).
  assert (length q <= m /\ length p <= m /\ length a <= m) as (Hq & Hp & Ha).
  { unfold m. simpl. lia. }
  do 3 eexists. split; [reflexivity|].
  rewrite !length_app, !repeat_length.
  split_and!; try lia; do 2 f_equal; lia.
Qed.

Lemma nth_padded (a : list value) (k i : nat) :
  nth i (a ++ repeat PyNone k) PyNone = nth i a PyNone.
Proof.
  destruct (Nat.lt_ge_cases i (length a)) as [Hi|Hi].
  - by apply app_nth1.
  - rewrite app_nth2 by lia. rewrite (nth_overflow a) by lia. apply nth_repeat.
Qed.

Lemma main_rows_returns (q p a : list value) (st : State) :
  heap_ok (heap st) ->
  returns (main_rows q p a) st
    (fun rows st' =>
       quiet_step st st'
       /\ Forall (fun l => l < length (heap st')) rows
       /\ length rows = max_list [length q; length p; length a]
       /\ forall i l, rows !! i = Some l -> row_loc a i l).
Proof.
  intros Hok. unfold main_rows.
  destruct (combine_and_pad_lists_three q p a)
    as (q' & p' & a' & -> & Hq & Hp & Ha & _ & _ & Hpad).
  cbv zeta.
  apply returns_bind. eapply returns_index; [reflexivity|].
  apply returns_bind. eapply returns_index; [reflexivity|].
  apply returns_bind. eapply returns_index; [reflexivity|].
  eapply returns_mono.
  { apply assemble_rows_returns; [done| |constructor].
    apply Forall_forall. intros i Hin. apply list_elem_of_In, in_seq in Hin. lia. }
  intros rows st' (Hq' & Hrows & new & -> & Hnew). cbn [app] in *.
  pose proof (Forall2_length _ _ _ Hnew) as Hn. rewrite length_seq in Hn.
  split_and!; try done; [lia|].
  intros i l Hl.
  destruct (Forall2_lookup_r _ _ _ _ _ Hnew Hl) as (i' & Hi' & Hloc).
  apply lookup_seq in Hi' as [-> _]. simpl in Hloc.
  unfold row_loc in *. rewrite Hpad in Hloc. by rewrite nth_padded in Hloc.
Qed.

(** ** The readers never raise *)

Lemma returns_print_store (s : pystr) (st : State) (Q : unit -> State -> Prop) :
  (forall st', same_store st st' -> Q tt st') -> returns (print s) st Q.
Proof. intros H. apply returns_print, H. by split. Qed.

Lemma read_excel_data_returns (w : World) (path : pystr) (kwargs : gmap pystr value)
  (st : State) :
  returns (read_excel_data w path kwargs) st
    (fun obj st' =>
       same_store st st'
       /\ if bool_decide (kwargs !! u "nrows" = Some (PyInt 1))
             && bool_decide (kwargs !! u "usecols" = Some (PyStr (u "I")))
          then exists v, obj = Scalar v
          else obj = Scalar PyNone \/ exists f, obj = DataFrame f).
Proof.
  unfold read_excel_data, try_except, bind, lift.
  set (is_cell := bool_decide (kwargs !! u "nrows" = Some (PyInt 1))
                  && bool_decide (kwargs !! u "usecols" = Some (PyStr (u "I")))).
  assert (Hnone : forall out,
            same_store st (mkState (heap st) out (csv_file st))
            /\ if is_cell then exists v, Scalar PyNone = Scalar v
               else Scalar PyNone = Scalar PyNone \/ exists f, Scalar PyNone = DataFrame f).
  { intros out. split; [by split|]. destruct is_cell; eauto. }
  destruct (pd_read_excel w path kwargs) as [e|df]; cbn [raise ret].
  - destruct e; (eapply returns_eq; [reflexivity|apply Hnone]).
  - destruct is_cell eqn:Ecell.
    + destruct (frame_empty df) eqn:Eempty; cbn [negb].
      * eapply returns_eq; [reflexivity|]. split; [by split|eauto].
      * unfold frame_empty in Eempty. apply orb_false_iff in Eempty as [Hh Hc].
        apply Nat.eqb_neq in Hh, Hc. unfold iloc_0_0.
        destruct (columns df) as [|[name col] cols]; [done|].
        assert ((0 <? height df) = true) as -> by (apply Nat.ltb_lt; lia).
        eapply returns_eq; [reflexivity|]. split; [by split|eauto].
    + eapply returns_eq; [reflexivity|]. split; [by split|eauto].
Qed.

Lemma excel_scalar_returns (df_excel : pyobj) (col : pystr) (st : State) :
  df_excel = Scalar PyNone \/ (exists f, df_excel = DataFrame f) ->
  returns (excel_scalar df_excel col) st (fun vs st' => st' = st /\ length vs <= 1).
Proof.
  intros [->|[f ->]]; [eapply returns_eq; [reflexivity|]; simpl; split; [done|lia]|].
  unfold excel_scalar.
  destruct (0 <? height f); cbn [andb];
    [|eapply returns_eq; [reflexivity|]; simpl; split; [done|lia]].
  destruct (bool_decide (col ∈ List.map fst (columns f))) eqn:E;
    [|eapply returns_eq; [reflexivity|]; simpl; split; [done|lia]].
  apply bool_decide_eq_true_1 in E.
  apply list_elem_of_In, in_map_iff in E as (c & Hc & Hin).
  destruct (list_find_elem_of (fun c => fst c = col) (columns f) c) as [[k [name series]] Hk];
    [by apply list_elem_of_In|done|].
  rewrite Hk. eapply returns_eq; [reflexivity|]. simpl. split; [done|lia].
Qed.

Lemma scan_rectangles_keys (page : Page) (rectangles : list (pystr * Rect))
  (extracted_data : gmap pystr (list pystr)) (key : pystr) :
  is_Some (extracted_data !! key) ->
  is_Some ((scan_rectangles page rectangles extracted_data).2 !! key).
Proof.
  revert extracted_data.
  induction rectangles as [|[k rect] rest IH]; intros d Hd; [done|].
  cbn [scan_rectangles]. destruct (get_textbox page rect) as [e|t]; [done|].
  apply IH. destruct (decide (k = key)) as [->|Hne].
  - rewrite lookup_alter_eq. destruct Hd as [x ->]. by eexists.
  - by rewrite lookup_alter_ne.
Qed.

Lemma scan_pages_keys (doc : list Page) (page_nums : list nat)
  (rectangles : list (pystr * Rect))
  (extracted_data : gmap pystr (list pystr)) (key : pystr) :
  is_Some (extracted_data !! key) ->
  is_Some ((scan_pages doc page_nums rectangles extracted_data).2 !! key).
Proof.
  revert extracted_data.
  induction page_nums as [|n rest IH]; intros d Hd; [done|].
  cbn [scan_pages]. destruct (doc !! n) as [page|]; [|done].
  pose proof (scan_rectangles_keys page rectangles d key Hd) as H.
  destruct (scan_rectangles page rectangles d) as [[e|] d']; [done|].
  by apply IH.
Qed.

Lemma extract_pdf_data_returns (w : World) (pdf_path : pystr) (num_pages : Z)
  (st : State) :
  returns (extract_pdf_data w pdf_path PDF_RECTANGLES num_pages) st
    (fun d st' =>
       same_store st st'
       /\ is_Some (d !! u "value") /\ is_Some (d !! u "change")
       /\ is_Some (d !! u "account_num")).
Proof.
  unfold extract_pdf_data.
  set (d0 := list_to_map (List.map (fun kr => (kr.1, [])) PDF_RECTANGLES)
             : gmap pystr (list pystr)).
  assert (H0 : forall key, In key [u "value"; u "change"; u "account_num"] ->
                 is_Some (d0 !! key)).
  { intros key [<-|[<-|[<-|[]]]]; exists []; vm_compute; reflexivity. }
  set (res := match fitz_open w pdf_path with
              | inl e => (Some e, d0)
              | inr doc =>
                  scan_pages doc
                    (seq 0 (Z.to_nat (Z.min num_pages (Z.of_nat (length doc)))))
                    PDF_RECTANGLES d0
              end).
  assert (Hres : forall key, In key [u "value"; u "change"; u "account_num"] ->
                   is_Some (res.2 !! key)).
  { intros key Hkey. unfold res. destruct (fitz_open w pdf_path) as [e|doc].
    - by apply H0.
    - apply scan_pages_keys. by apply H0. }
  destruct res as [raised d].
  assert (Hd : is_Some (d !! u "value") /\ is_Some (d !! u "change")
               /\ is_Some (d !! u "account_num")).
  { split_and!; apply Hres; simpl; auto. }
  destruct raised as [e|].
  - destruct e; (apply returns_bind, returns_print_store; intros st' Hst';
                 by apply returns_ret).
  - apply returns_ret. split; [by split|done].
Qed.

(** ** [main] never raises *)

Lemma account_cell_kwargs :
  bool_decide (EXCEL_ACCOUNT_CELL !! u "nrows" = Some (PyInt 1))
  && bool_decide (EXCEL_ACCOUNT_CELL !! u "usecols" = Some (PyStr (u "I"))) = true.
Proof. vm_compute. reflexivity. Qed.

Lemma data_range_kwargs :
  bool_decide (EXCEL_DATA_RANGE !! u "nrows" = Some (PyInt 1))
  && bool_decide (EXCEL_DATA_RANGE !! u "usecols" = Some (PyStr (u "I"))) = false.
Proof. vm_compute. reflexivity. Qed.

Lemma returns_getitem (l : loc) (i : nat) (st : State) (Q : value -> State -> Prop) :
  heap_ok (heap st) -> l < length (heap st) -> i < 13 ->
  (forall v, Q v st) -> returns (getitem l i) st Q.
Proof.
  intros Hok Hl Hi HQ.
  destruct (lookup_lt_is_Some_2 (heap st) l Hl) as [r Hr].
  destruct (heap_ok_fields _ _ _ Hok Hr) as [Hlen _].
  destruct (lookup_lt_is_Some_2 r i) as [v Hv]; [lia|].
  eapply returns_eq; [by eapply getitem_run|apply HQ].
Qed.

Lemma returns_dict_getitem {A} (d : gmap pystr A) (key : pystr) (st : State)
  (Q : A -> State -> Prop) :
  is_Some (d !! key) -> (forall x, Q x st) -> returns (dict_getitem d key) st Q.
Proof.
  intros [x Hx] HQ. eapply returns_eq; [|apply HQ]. unfold dict_getitem. by rewrite Hx.
Qed.

Lemma main_inputs_returns (isdigit : char -> bool) (w : World) (st : State) :
  heap_ok (heap st) ->
  returns (main_inputs isdigit w) st
    (fun _ st' => heap_ok (heap st') /\ csv_file st' = csv_file st).
Proof.
  intros Hok. unfold main_inputs.
  apply returns_bind.
  eapply returns_mono; [apply read_excel_data_returns|].
  intros obj st1 [[Hh1 Hc1] Hobj]. rewrite account_cell_kwargs in Hobj.
  destruct Hobj as [excel_account ->].
  apply returns_bind.
  eapply returns_mono; [apply read_excel_data_returns|].
  intros df_excel st2 [[Hh2 Hc2] Hdf]. rewrite data_range_kwargs in Hdf.
  apply returns_bind, returns_ret.
  apply returns_bind, returns_print_store. intros st3 [Hh3 Hc3].
  apply returns_bind.
  eapply returns_mono; [apply lookup_account_info_returns; congruence|].
  intros l st4 ((Hok4 & _ & _ & Hc4) & Hl & _).
  apply returns_bind, returns_getitem; [done|done|lia|]. intros full.
  apply returns_bind, returns_getitem; [done|done|lia|]. intros name.
  apply returns_bind, returns_getitem; [done|done|lia|]. intros city.
  apply returns_bind, returns_print_store. intros st5 [Hh5 Hc5].
  apply returns_bind.
  eapply returns_mono; [apply extract_pdf_data_returns|].
  intros d st6 ([Hh6 Hc6] & Hv & Hch & Ha).
  apply returns_bind, returns_dict_getitem; [done|]. intros raw_value.
  apply returns_bind, returns_dict_getitem; [done|]. intros raw_change.
  apply returns_bind, returns_dict_getitem; [done|]. intros raw_accounts.
  apply returns_bind.
  eapply returns_mono; [by apply excel_scalar_returns|].
  intros excel_value st7 [-> _].
  apply returns_bind.
  eapply returns_mono; [by apply excel_scalar_returns|].
  intros excel_change st8 [-> _].
  apply returns_ret. split; congruence.
Qed.

Lemma read_rows_run (rows : list loc) (st : State) :
  Forall (fun l => l < length (heap st)) rows ->
  exists recs,
    read_rows rows st = (inr recs, st)
    /\ Forall2 (fun l r => heap st !! l = Some r) rows recs.
Proof.
  induction 1 as [|l rows Hl Hrows (recs & Hrun & Hrecs)].
  - exists []. split; [reflexivity|constructor].
  - destruct (lookup_lt_is_Some_2 (heap st) l Hl) as [r Hr].
    exists (r :: recs). split; [|by constructor].
    cbn [read_rows]. unfold bind at 1, read_list. rewrite Hr.
    unfold bind. by rewrite Hrun.
Qed.

(** Section 5 on a non-empty table: the rows are read off the heap, shown and
    written under the fixed header. *)
Lemma main_save_rows (rows : list loc) (st : State) :
  rows <> [] -> Forall (fun l => l < length (heap st)) rows ->
  exists recs,
    Forall2 (fun l r => heap st !! l = Some r) rows recs
    /\ main_save rows st
       = (inr tt,
          mkState (heap st)
            (stdout st
               ++ [Line (u "
Combined PDF and Excel Data:");
                   ShowTable SCHEMA recs;
                   Line (u "
Data saved to extracted_data_with_full_details.csv")])
            (Some (OUTPUT_PATH, (SCHEMA, recs)))).
Proof.
  intros Hne Hrows. destruct (read_rows_run rows st Hrows) as (recs & Hrun & Hrecs).
  exists recs. split; [done|].
  destruct rows as [|l rows]; [done|]. unfold main_save.
  rewrite (bind_ret_r _ _ _ _ _ Hrun).
  unfold bind, print, print_frame, write_csv. cbn [heap stdout csv_file].
  rewrite <- !app_assoc. reflexivity.
Qed.

(** Section 5 on the empty table: one message, nothing written. *)
Lemma main_save_empty (st : State) :
  main_save [] st
  = (inr tt,
     mkState (heap st)
       (stdout st ++ [Line (u "No meaningful data extracted from PDF or Excel file.")])
       (csv_file st)).
Proof. reflexivity. Qed.

Lemma main_run (isdigit : char -> bool) (w : World) :
  exists ids rows st,
    assembled isdigit w ids rows st
    /\ heap_ok (heap st)
    /\ Forall (fun l => l < length (heap st)) rows
    /\ (forall i l, rows !! i = Some l -> row_loc ids i l)
    /\ csv_file st = None
    /\ main isdigit w initial_state = main_save rows st.
Proof.
  destruct (main_inputs_returns isdigit w initial_state heap_ok_initial)
    as ([[q p] a] & st1 & Hin & Hok1 & Hcsv1).
  destruct (main_rows_returns q p a st1 Hok1)
    as (rows & st2 & Hrows & (Hok2 & _ & _ & Hcsv2) & Hvalid & _ & Hloc).
  exists a, rows, st2. split_and!; try done.
  - by exists q, p, st1.
  - by rewrite Hcsv2, Hcsv1.
  - unfold main. rewrite (bind_ret_r _ _ _ _ _ Hin).
    by rewrite (bind_ret_r _ _ _ _ _ Hrows).
Qed.

(** C8: [main] always terminates normally.  When the assembled table is empty
    it writes no file and its last output line reports that there is no data;
    otherwise it writes every row, read off the heap, under the 13-column
    header.  With both input files missing the table is empty. *)
Theorem main_reports_or_saves :
  (forall (isdigit : char -> bool) (w : World),
     exists ids rows st st',
       assembled isdigit w ids rows st
       /\ main isdigit w initial_state = (inr tt, st')
       /\ (rows = [] ->
           csv_file st' = None
           /\ stdout st'
              = stdout st
                ++ [Line (u "No meaningful data extracted from PDF or Excel file.")])
       /\ (rows <> [] ->
           exists recs,
             Forall2 (fun l r => heap st !! l = Some r) rows recs
             /\ csv_file st' = Some (OUTPUT_PATH, (SCHEMA, recs))))
  /\ length SCHEMA = 13
  /\ (forall isdigit : char -> bool,
        exists st st',
          assembled isdigit missing_world [] [] st
          /\ main isdigit missing_world initial_state = (inr tt, st')
          /\ csv_file st' = None
          /\ stdout st'
             = [Line (u "Error: Excel file not found at input/EXEMPLE EXCEL.xlsx");
                Line (u "Error: Excel file not found at input/EXEMPLE EXCEL.xlsx");
                Line (u "Account from Excel: None");
                Line (u "Excel account lookup (partial): Full Account: None, Name: None, City: None");
                Line (u "Error: PDF file not found at input/CIC.pdf");
                Line (u "No meaningful data extracted from PDF or Excel file.")]).
Proof.
  split_and!; [|reflexivity|].
  - intros isdigit w.
    destruct (main_run isdigit w)
      as (ids & rows & st & Hasm & Hok & Hvalid & _ & Hcsv & Hmain).
    destruct (decide (rows = [])) as [->|Hne].
    + eexists ids, [], st, _. split_and!; [done|by rewrite Hmain, main_save_empty| |done].
      intros _. by cbn [csv_file stdout].
    + destruct (main_save_rows rows st Hne Hvalid) as (recs & Hrecs & Hsave).
      eexists ids, rows, st, _. split_and!; [done|by rewrite Hmain, Hsave|done|].
      intros _. by exists recs.
  - intros isdigit.
    set (out := [Line (u "Error: Excel file not found at input/EXEMPLE EXCEL.xlsx");
                 Line (u "Error: Excel file not found at input/EXEMPLE EXCEL.xlsx");
                 Line (u "Account from Excel: None");
                 Line (u "Excel account lookup (partial): Full Account: None, Name: None, City: None");
                 Line (u "Error: PDF file not found at input/CIC.pdf")]).
    set (h := [template_193; template_100; repeat PyNone 13]).
    exists (mkState h out None),
      (mkState h
         (out ++ [Line (u "No meaningful data extracted from PDF or Excel file.")])
         None).
    split_and!; [|vm_compute; reflexivity|reflexivity|vm_compute; reflexivity].
    exists [], [], (mkState h out None). split; vm_compute; reflexivity.
Qed.

(** ** The row loop on padded sequences *)

(** C10: after padding, the three sequences have one length; at every row
    index both bounds guards of the loop hold, so the loop body assigns
    fields 10 and 11 from the padded quantity and cost-basis sequences; and
    the loop returns as many rows as that common length. *)
Theorem padded_rows_assigned (q p a : list value) :
  exists q' p' a',
    combine_and_pad_lists [q; p; a] = [q'; p'; a']
    /\ length q' = length a' /\ length p' = length a'
    /\ (forall i, i < length a' ->
          (i <? length q') = true /\ (i <? length p') = true
          /\ exists vq vp,
               q' !! i = Some vq /\ p' !! i = Some vp
               /\ forall rest acc st,
                    assemble_rows (i :: rest) q' p' a' acc st
                    = (account_id <- index a' i ;;
                       account_template <- lookup_account_info account_id LOOKUP_TABLE ;;
                       setitem account_template 10 vq ;;;
                       setitem account_template 11 vp ;;;
                       assemble_rows rest q' p' a' (acc ++ [account_template])) st)
    /\ (forall st, heap_ok (heap st) ->
          exists rows st',
            main_rows q p a st = (inr rows, st') /\ length rows = length a').
Proof.
  destruct (combine_and_pad_lists_three q p a)
    as (q' & p' & a' & Hpad & Hq & Hp & Ha & _).
  exists q', p', a'. split_and!; [done|congruence|congruence| |].
  - intros i Hi.
    assert (Hiq : i < length q') by congruence.
    assert (Hip : i < length p') by congruence.
    destruct (lookup_lt_is_Some_2 q' i Hiq) as [vq Hvq].
    destruct (lookup_lt_is_Some_2 p' i Hip) as [vp Hvp].
    apply Nat.ltb_lt in Hiq, Hip. split_and!; [done|done|].
    exists vq, vp. split_and!; [done|done|].
    intros rest acc st. cbn [assemble_rows]. rewrite Hiq, Hip.
    unfold index. rewrite Hvq, Hvp. reflexivity.
  - intros st Hok.
    destruct (main_rows_returns q p a st Hok)
      as (rows & st' & Hrun & _ & _ & Hn & _).
    exists rows, st'. split; [done|]. congruence.
Qed.

(** ** The shape of the output rows *)

Lemma heap_ok_row (h : list record) (ids : list value) (i : nat) (l : loc)
  (r : record) :
  heap_ok h -> h !! l = Some r -> row_loc ids i l ->
  row_shape (nth i ids PyNone) r.
Proof.
  intros Hok Hr Hloc. destruct (heap_ok_fields _ _ _ Hok Hr) as [Hlen _].
  split; [done|]. unfold row_loc in Hloc.
  destruct Hok as ((r0 & H0 & A0) & (r1 & H1 & A1) & Hb).
  destruct (template_of LOOKUP_TABLE (nth i ids PyNone)) as [t|] eqn:E.
  - subst l. destruct (template_of_range _ _ E) as [->| ->].
    + left. split; [done|]. by simplify_eq.
    + right. split; [done|]. by simplify_eq.
  - by eapply Hb.
Qed.

(** C5, as the code has it: [main] always returns, and every row of the
    written table has exactly 13 fields.  The row of an absent or unmatched
    identifier holds [None] in every field other than 2, 10 and 11; the row of
    a matched identifier is its template outside fields 10 and 11, and field 6
    of both templates is the empty string. *)
Theorem output_rows_shape :
  (forall (isdigit : char -> bool) (w : World),
     exists ids rows st st',
       assembled isdigit w ids rows st
       /\ main isdigit w initial_state = (inr tt, st')
       /\ length (csv_rows st') = length rows
       /\ forall i r, csv_rows st' !! i = Some r ->
            row_shape (nth i ids PyNone) r)
  /\ template_193 !! 6 = Some (PyStr [])
  /\ template_100 !! 6 = Some (PyStr []).
Proof.
  split_and!; [|reflexivity|reflexivity].
  intros isdigit w.
  destruct (main_run isdigit w)
    as (ids & rows & st & Hasm & Hok & Hvalid & Hloc & Hcsv & Hmain).
  destruct (decide (rows = [])) as [->|Hne].
  - eexists ids, [], st, _.
    split_and!; [done|by rewrite Hmain, main_save_empty| |].
    + unfold csv_rows. cbn [csv_file]. by rewrite Hcsv.
    + unfold csv_rows. cbn [csv_file]. rewrite Hcsv. by intros i r.
  - destruct (main_save_rows rows st Hne Hvalid) as (recs & Hrecs & Hsave).
    eexists ids, rows, st, _.
    split_and!; [done|by rewrite Hmain, Hsave| |].
    + unfold csv_rows. cbn [csv_file]. symmetry. by eapply Forall2_length.
    + unfold csv_rows. cbn [csv_file]. intros i r Hr.
      destruct (Forall2_lookup_r _ _ _ _ _ Hrecs Hr) as (l & Hl & Hheap).
      eapply heap_ok_row; eauto.
Qed.

(** ** End to end *)

Lemma bind_ext {A B} (c : M A) (k1 k2 : A -> M B) (st : State) :
  (forall a st', k1 a st' = k2 a st') -> bind c k1 st = bind c k2 st.
Proof. intros H. unfold bind. destruct (c st) as [[e|a] st']; [reflexivity|apply H]. Qed.

Lemma main_inputs_ext (d1 d2 : char -> bool) (w : World) (st : State) :
  (forall c, d1 c = d2 c) -> main_inputs d1 w st = main_inputs d2 w st.
Proof.
  intros H. unfold main_inputs.
  do 12 (apply bind_ext; intros).
  by rewrite !(clean_extracted_text_ext d1 d2).
Qed.

(** [main] depends on the digit table pointwise. *)
Lemma main_ext (d1 d2 : char -> bool) (w : World) (st : State) :
  (forall c, d1 c = d2 c) -> main d1 w st = main d2 w st.
Proof.
  intros H. unfold main. unfold bind at 1 3. by rewrite (main_inputs_ext d1 d2).
Qed.

Section EndToEnd.

Variable isdigit : char -> bool.

(** The digit table agrees with the ASCII digits on ASCII characters. *)
Hypothesis isdigit_ascii : forall c : char, (c < 128)%N -> isdigit c = ascii_isdigit c.

Lemma isdigit_ascii_below_128 (c : char) : isdigit c = ascii_below_128 isdigit c.
Proof.
  unfold ascii_below_128. destruct (N.ltb_spec c 128); [by apply isdigit_ascii|done].
Qed.

(** C4, as the code has it: for the spreadsheet account cell "193", the PDF
    value line "1.500,00" and the PDF account line "100123456" the written
    table has exactly 2 rows.  Row 0 is the "193" template with the
    spreadsheet's acquisition cost and valuation in fields 10 and 11; row 1 is
    the "100" template with quantity "1.500.00": the comma becomes a period
    and the periods stay. *)
Theorem end_to_end_rows (quantity valorisation : value) :
  exists st',
    main isdigit
      (world_of (PyStr (u "193")) quantity valorisation
         (u "1.500,00") [] (u "100123456"))
      initial_state
    = (inr tt, st')
    /\ csv_rows st'
       = [<[11 := valorisation]> (<[10 := quantity]> template_193);
          <[11 := PyNone]> (<[10 := PyStr (u "1.500.00")]> template_100)].
Proof.
  rewrite (main_ext isdigit _ _ _ isdigit_ascii_below_128).
  set (w := world_of _ _ _ _ _ _).
  assert (Hres : (main (ascii_below_128 isdigit) w initial_state).1 = inr tt)
    by (vm_compute; reflexivity).
  assert (Hrows :
            csv_rows (main (ascii_below_128 isdigit) w initial_state).2
            = [<[11 := valorisation]> (<[10 := quantity]> template_193);
               <[11 := PyNone]> (<[10 := PyStr (u "1.500.00")]> template_100)])
    by (vm_compute; reflexivity).
  destruct (main (ascii_below_128 isdigit) w initial_state) as [res st'].
  cbn [fst snd] in *. subst res. by exists st'.
Qed.

End EndToEnd.

Lemma ascii_digit_not_space (c : char) : ascii_isdigit c = true -> isspace c = false.
Proof. intros H. chars. Qed.

(** The idempotence theorem at the ASCII digits, on a text of three lines. *)
Lemma clean_extracted_text_idempotent_witness :
  clean_extracted_text ascii_isdigit
    (join [10%N]
       (clean_extracted_text ascii_isdigit
          (u "1 234,56" ++ [10%N] ++ u "abc" ++ [10%N] ++ u "7 €") false))
    false
  = clean_extracted_text ascii_isdigit
      (u "1 234,56" ++ [10%N] ++ u "abc" ++ [10%N] ++ u "7 €") false
  /\ Forall (fun entry => clean_extracted_text ascii_isdigit entry false = [entry])
       (clean_extracted_text ascii_isdigit
          (u "1 234,56" ++ [10%N] ++ u "abc" ++ [10%N] ++ u "7 €") false).
Proof.
  apply (clean_extracted_text_idempotent ascii_isdigit ascii_digit_not_space).
  reflexivity.
Defined.

(** The end-to-end theorem at the ASCII digits, with acquisition cost 1200 and
    valuation 1350 in the spreadsheet. *)
Lemma end_to_end_rows_witness :
  exists st',
    main ascii_isdigit
      (world_of (PyStr (u "193")) (PyInt 1200) (PyInt 1350)
         (u "1.500,00") [] (u "100123456"))
      initial_state
    = (inr tt, st')
    /\ csv_rows st'
       = [<[11 := PyInt 1350]> (<[10 := PyInt 1200]> template_193);
          <[11 := PyNone]> (<[10 := PyStr (u "1.500.00")]> template_100)].
Proof.
  apply (end_to_end_rows ascii_isdigit). intros c Hc. reflexivity.
Defined.

(** ** Where the code departs from the specification *)

(** C4 as stated fails: on the end-to-end input the quantity of row 1 is
    "1.500.00", which is not the string "1500.00". *)
Lemma end_to_end_quantity_keeps_periods :
  length
    (csv_rows
       (run (world_of (PyStr (u "193")) (PyInt 1200) (PyInt 1350)
               (u "1.500,00") [] (u "100123456"))).2) = 2
  /\ (csv_rows
        (run (world_of (PyStr (u "193")) (PyInt 1200) (PyInt 1350)
                (u "1.500,00") [] (u "100123456"))).2 !! 1)
       ≫= (fun row => row !! 10)
     = Some (PyStr (u "1.500.00"))
  /\ PyStr (u "1.500.00") <> PyStr (u "1500.00").
Proof. split_and!; [vm_compute; reflexivity|vm_compute; reflexivity|discriminate]. Qed.

(** C5 as stated fails: a row built from a matched template holds the empty
    string, not [None], in field 6 (Cours). *)
Lemma matched_row_holds_empty_string :
  exists row,
    csv_rows
      (run (world_of (PyStr (u "193")) (PyInt 1200) (PyInt 1350)
              (u "1.500,00") [] (u "100123456"))).2 !! 0 = Some row
    /\ length row = 13
    /\ row !! 6 = Some (PyStr (u ""))
    /\ PyStr (u "") <> PyNone.
Proof.
  eexists. split_and!; [vm_compute; reflexivity|reflexivity|reflexivity|discriminate].
Qed.

(** C1: a lookup whose key is in the table returns the table's own list, not
    a copy.  Assigning field 10 of the result changes what the next lookup of
    the prefix returns, and in [main] two rows of one prefix are one list: both
    show the quantity and cost basis of the later row. *)
Theorem lookup_account_info_shares_template :
  (forall (account_num : value) (t : loc) (st : State),
     template_of LOOKUP_TABLE account_num = Some t ->
     (lookup_account_info account_num LOOKUP_TABLE st).1 = inr t)
  /\ (first <- lookup_account_info (PyStr (u "193000")) LOOKUP_TABLE ;;
      setitem first 10 (PyStr (u "7")) ;;;
      second <- lookup_account_info (PyStr (u "193000")) LOOKUP_TABLE ;;
      template <- read_list second ;;
      ret (first, second, template)) initial_state
     = (inr (0, 0, <[10 := PyStr (u "7")]> template_193),
        mkState
          [<[10 := PyStr (u "7")]> template_193; template_100;
           repeat PyNone 13; repeat PyNone 13]
          [] None)
  /\ <[10 := PyStr (u "7")]> template_193 <> template_193
  /\ csv_rows
       (run (world_of (PyStr (u "193")) (PyInt 7) (PyInt 8)
               (u "2") [] (u "193555"))).2
     = [<[11 := PyNone]> (<[10 := PyStr (u "2")]> template_193);
        <[11 := PyNone]> (<[10 := PyStr (u "2")]> template_193)].
Proof.
  split_and!.
  - intros account_num t st H. rewrite lookup_account_info_run. by rewrite H.
  - vm_compute. reflexivity.
  - discriminate.
  - vm_compute. reflexivity.
Qed.

(** C2: the lines read from a rectangle are joined with a space before they
    are cleaned, so the two value lines "1" and "2" become the one entry "12"
    and the two account lines one identifier: the table has 2 rows, not 3. *)
Theorem pdf_lines_joined_into_one_entry :
  match
    (extract_pdf_data
       (world_of (PyStr (u "193")) (PyInt 7) (PyInt 8)
          (u "1" ++ [10%N] ++ u "2") []
          (u "100123456" ++ [10%N] ++ u "193000"))
       PDF_PATH PDF_RECTANGLES 1 initial_state).1
  with
  | inr pdf_raw_data => pdf_raw_data !! u "value"
  | inl _ => None
  end = Some [u "1"; u "2"]
  /\ clean_extracted_text ascii_isdigit (join (u " ") [u "1"; u "2"]) false = [u "12"]
  /\ (main_inputs ascii_isdigit
        (world_of (PyStr (u "193")) (PyInt 7) (PyInt 8)
           (u "1" ++ [10%N] ++ u "2") []
           (u "100123456" ++ [10%N] ++ u "193000"))
        initial_state).1
     = inr ([PyInt 7; PyStr (u "12")], [PyInt 8],
            [PyStr (u "193"); PyStr (u "100123456 193000")])
  /\ length
       (csv_rows
          (run (world_of (PyStr (u "193")) (PyInt 7) (PyInt 8)
                  (u "1" ++ [10%N] ++ u "2") []
                  (u "100123456" ++ [10%N] ++ u "193000"))).2) = 2.
Proof. split_and!; vm_compute; reflexivity. Qed.

(** C3: the allowlist is the set of the strings ".", "€" and "EUR", and a
    character is never the three-letter string: the letters E, U and R are
    discarded like any other letter, and "5E" is cleaned to "5". *)
Theorem clean_extracted_text_drops_letters :
  clean_extracted_text ascii_isdigit (u "5E") false = [u "5"]
  /\ clean_extracted_text ascii_isdigit (u "12 EUR") false = [u "12"]
  /\ clean_extracted_text ascii_isdigit (u "12 €") false = [u "12€"]
  /\ (forall c : char, in_set [c] [u "."; u "€"; u "EUR"] = ((c =? 46) || (c =? 8364))%N)
  /\ (forall (isdigit : char -> bool) (text : pystr),
        Forall (Forall (fun c => isdigit c = true \/ c = 46%N \/ c = 8364%N))
          (clean_extracted_text isdigit text false)).
Proof.
  split_and!; try (vm_compute; reflexivity).
  - apply in_allowlist.
  - intros isdigit text.
    eapply Forall_impl; [apply clean_numeric_entries|].
    intros entry [_ H]. eapply Forall_impl; [exact H|].
    intros c Hc. unfold kept in Hc. cbv beta in Hc.
    apply orb_true_iff in Hc as [Hc|Hc]; [|apply N.eqb_eq in Hc; auto].
    apply orb_true_iff in Hc as [Hc|Hc]; [auto|apply N.eqb_eq in Hc; auto].
Qed.

(** * Further properties of the code *)

(** ** More on strings *)

Lemma lstrip_suffix (s : pystr) : exists w, s = w ++ lstrip s.
Proof.
  induction s as [|c s [w IH]]; [by exists []|]. simpl.
  destruct (isspace c); [|by exists []].
  exists (c :: w). simpl. by rewrite <- IH.
Qed.

Lemma lstrip_head (s : pystr) :
  match lstrip s with [] => True | c :: _ => isspace c = false end.
Proof.
  induction s as [|c s IH]; [done|]. simpl.
  destruct (isspace c) eqn:E; [exact IH|exact E].
Qed.

Lemma lstrip_idem (s : pystr) : lstrip (lstrip s) = lstrip s.
Proof.
  pose proof (lstrip_head s) as H. destruct (lstrip s) as [|c r]; [done|].
  simpl. by rewrite H.
Qed.

Lemma rstrip_prefix (s : pystr) : exists w, s = rstrip s ++ w.
Proof.
  unfold rstrip. destruct (lstrip_suffix (rev s)) as [w Hw].
  exists (rev w). rewrite <- rev_app_distr, <- Hw. by rewrite rev_involutive.
Qed.

Lemma rstrip_idem (s : pystr) : rstrip (rstrip s) = rstrip s.
Proof. unfold rstrip. by rewrite rev_involutive, lstrip_idem. Qed.

Lemma lstrip_Forall (P : char -> Prop) (s : pystr) : Forall P s -> Forall P (lstrip s).
Proof.
  intros H. destruct (lstrip_suffix s) as [w Hw]. rewrite Hw in H.
  by apply Forall_app in H as [_ H].
Qed.

Lemma strip_Forall (P : char -> Prop) (s : pystr) : Forall P s -> Forall P (strip s).
Proof.
  intros H. unfold strip, rstrip.
  apply Forall_rev, lstrip_Forall, Forall_rev. by apply lstrip_Forall.
Qed.

(** Trimming a trimmed string changes nothing. *)
Lemma strip_idem (s : pystr) : strip (strip s) = strip s.
Proof.
  unfold strip.
  assert (lstrip (rstrip (lstrip s)) = rstrip (lstrip s)) as ->; [|apply rstrip_idem].
  pose proof (lstrip_head s) as Hhead.
  destruct (rstrip_prefix (lstrip s)) as [w Hw].
  destruct (rstrip (lstrip s)) as [|c r]; [done|].
  rewrite Hw in Hhead. simpl in Hhead. simpl. by rewrite Hhead.
Qed.

Lemma last_line_Forall (Q : pystr -> Prop) (cur : pystr) :
  Q cur -> Forall Q match cur with [] => [] | _ => [cur] end.
Proof. intros H. destruct cur; [constructor|by constructor]. Qed.

(** The characters of every line are characters of the text. *)
Lemma splitlines_from_Forall (P : char -> Prop) (n : nat) (cur s : pystr) :
  length s <= n -> Forall P cur -> Forall P s ->
  Forall (Forall P) (splitlines_from cur s).
Proof.
  revert cur s. induction n as [|n IH]; intros cur s Hn Hcur Hs.
  - destruct s; [|simpl in Hn; lia]. by apply last_line_Forall.
  - destruct s as [|c r]; [by apply last_line_Forall|].
    apply Forall_cons in Hs as [Hc Hr]. simpl in Hn. cbn [splitlines_from].
    destruct (c =? 13)%N.
    + destruct r as [|c' r'].
      * constructor; [done|]. apply IH; [simpl; lia|constructor|constructor].
      * apply Forall_cons in Hr as [Hc' Hr']. simpl in Hn.
        assert (Hrest : Forall (Forall P) (splitlines_from [] r')).
        { apply IH; [lia|constructor|done]. }
        assert (Hrest' : Forall (Forall P) (splitlines_from [] (c' :: r'))).
        { apply IH; [simpl; lia|constructor|by constructor]. }
        destruct c' as [|p]; [by constructor|].
        do 4 (destruct p as [p|p|]; try by constructor).
    + destruct (is_linebreak c).
      * constructor; [done|]. apply IH; [lia|constructor|done].
      * apply IH; [lia| |done]. apply Forall_app. split; [done|by repeat constructor].
Qed.

Lemma splitlines_Forall (P : char -> Prop) (s : pystr) :
  Forall P s -> Forall (Forall P) (splitlines s).
Proof. intros H. by apply (splitlines_from_Forall P (length s)). Qed.

(** No line holds a line boundary. *)
Lemma splitlines_from_lines (n : nat) (cur s : pystr) :
  length s <= n -> Forall (fun c => is_linebreak c = false) cur ->
  Forall (Forall (fun c => is_linebreak c = false)) (splitlines_from cur s).
Proof.
  revert cur s. induction n as [|n IH]; intros cur s Hn Hcur.
  - destruct s; [|simpl in Hn; lia]. by apply last_line_Forall.
  - destruct s as [|c r]; [by apply last_line_Forall|].
    simpl in Hn. cbn [splitlines_from].
    destruct (c =? 13)%N.
    + destruct r as [|c' r'].
      * constructor; [done|]. apply IH; [simpl; lia|constructor].
      * simpl in Hn.
        assert (Hrest : Forall (Forall (fun c => is_linebreak c = false))
                          (splitlines_from [] r')).
        { apply IH; [lia|constructor]. }
        assert (Hrest' : Forall (Forall (fun c => is_linebreak c = false))
                           (splitlines_from [] (c' :: r'))).
        { apply IH; [simpl; lia|constructor]. }
        destruct c' as [|p]; [by constructor|].
        do 4 (destruct p as [p|p|]; try by constructor).
    + destruct (is_linebreak c) eqn:E.
      * constructor; [done|]. apply IH; [lia|constructor].
      * apply IH; [lia|]. apply Forall_app. split; [done|by repeat constructor].
Qed.

Lemma splitlines_lines (s : pystr) :
  Forall (Forall (fun c => is_linebreak c = false)) (splitlines s).
Proof. by apply (splitlines_from_lines (length s)). Qed.

Lemma trimmed_lines_Forall (P : char -> Prop) (text : pystr) :
  Forall P text -> Forall (Forall P) (trimmed_lines text).
Proof.
  intros H. unfold trimmed_lines. apply Forall_forall. intros l Hl.
  apply list_elem_of_In, in_map_iff in Hl as (e & <- & He).
  apply filter_In in He as [He _]. apply strip_Forall.
  pose proof (splitlines_Forall P text H) as Hall.
  rewrite Forall_forall in Hall. by apply Hall, list_elem_of_In.
Qed.

Lemma trimmed_lines_lines (text : pystr) :
  Forall (fun l => l <> [] /\ strip l = l /\ Forall (fun c => is_linebreak c = false) l)
    (trimmed_lines text).
Proof.
  unfold trimmed_lines. apply Forall_forall. intros l Hl.
  apply list_elem_of_In, in_map_iff in Hl as (e & <- & He).
  apply filter_In in He as [He Hne]. split_and!.
  - unfold pystr_eqb in Hne. apply negb_true_iff, bool_decide_eq_false_1 in Hne. done.
  - apply strip_idem.
  - apply strip_Forall. pose proof (splitlines_lines text) as Hall.
    rewrite Forall_forall in Hall. by apply Hall, list_elem_of_In.
Qed.

Lemma trimmed_lines_length (text : pystr) :
  length (trimmed_lines text) <= length (splitlines text).
Proof. unfold trimmed_lines. rewrite length_map. apply List.filter_length_le. Qed.

(** ** More on the text normalizer *)

Lemma replace_Forall (P : char -> Prop) (old : char) (new s : pystr) :
  Forall P new -> Forall P s -> Forall P (replace old new s).
Proof.
  intros Hnew. unfold replace. induction 1 as [|c r Hc Hr IH]; simpl; [constructor|].
  apply Forall_app. split; [|exact IH].
  destruct (c =? old)%N; [done|by repeat constructor].
Qed.

Lemma list_filter_Forall {A} (P : A -> Prop) (f : A -> bool) (l : list A) :
  Forall P l -> Forall P (List.filter f l).
Proof.
  induction 1 as [|x l Hx Hl IH]; simpl; [constructor|].
  destruct (f x); [by constructor|done].
Qed.

Lemma existsb_none {A} (f : A -> bool) (l : list A) :
  Forall (fun x => f x = false) l -> existsb f l = false.
Proof. induction 1 as [|x l Hx Hl IH]; simpl; [done|]. by rewrite Hx, IH. Qed.

Lemma flat_map_length_le {A B} (f : A -> list B) (l : list A) :
  (forall x, length (f x) <= 1) -> length (flat_map f l) <= length l.
Proof.
  intros H. induction l as [|x l IH]; simpl; [lia|].
  rewrite length_app. specialize (H x). lia.
Qed.

Section CleaningMore.

Variable isdigit : char -> bool.

(** X1: a text in which no character is a digit cleans to the empty list on
    the numeric path, provided the period (which replaces each comma) is not a
    digit. *)
Theorem clean_extracted_text_without_digits (text : pystr) :
  isdigit 46%N = false ->
  Forall (fun c => isdigit c = false) text ->
  clean_extracted_text isdigit text false = [].
Proof.
  intros Hdot Htext. rewrite clean_numeric.
  pose proof (trimmed_lines_Forall _ text Htext) as Hlines.
  induction Hlines as [|l ls Hl Hls IH]; [reflexivity|].
  cbn [flat_map]. rewrite IH, app_nil_r.
  rewrite existsb_none; [reflexivity|].
  unfold normalize_line. apply list_filter_Forall.
  apply replace_Forall; [by repeat constructor|].
  apply replace_Forall; [constructor|done].
Qed.

(** X2: on the account path every returned line is non-empty, trimmed and
    free of line boundaries, and the path is idempotent: cleaning the
    line-joined result returns it unchanged. *)
Theorem clean_extracted_text_account_lines (text : pystr) :
  Forall
    (fun l => l <> [] /\ strip l = l /\ Forall (fun c => is_linebreak c = false) l)
    (clean_extracted_text isdigit text true)
  /\ clean_extracted_text isdigit
       (join [10%N] (clean_extracted_text isdigit text true)) true
     = clean_extracted_text isdigit text true.
Proof.
  rewrite !clean_account. pose proof (trimmed_lines_lines text) as H.
  split; [exact H|].
  unfold trimmed_lines at 1. rewrite splitlines_join.
  2:{ eapply Forall_impl; [exact H|]. by intros l (Hne & _ & Hl). }
  induction H as [|l ls (Hne & Hl & _) Hls IH]; [reflexivity|].
  cbn [List.filter]. rewrite Hl. unfold pystr_eqb at 1.
  rewrite bool_decide_eq_false_2 by done. cbn [negb List.map]. by rewrite Hl, IH.
Qed.

Lemma clean_length_lines (text : pystr) (is_account : bool) :
  length (clean_extracted_text isdigit text is_account) <= length (splitlines text).
Proof.
  etransitivity; [|apply trimmed_lines_length].
  destruct is_account; [by rewrite clean_account|].
  rewrite clean_numeric. apply flat_map_length_le.
  intros l. destruct (existsb isdigit (normalize_line isdigit l)); simpl; lia.
Qed.

Lemma clean_length_one_line (text : pystr) (is_account : bool) :
  Forall (fun c => is_linebreak c = false) text ->
  length (clean_extracted_text isdigit text is_account) <= 1.
Proof.
  intros Hb. pose proof (clean_length_lines text is_account) as H.
  rewrite (splitlines_nobreak text Hb) in H.
  destruct text as [|c r]; [|exact H]. destruct is_account; simpl; lia.
Qed.

(** X3: cleaning returns at most one entry per line of the text, so a text
    without line boundaries gives at most one entry, on either path. *)
Theorem clean_extracted_text_length (text : pystr) (is_account : bool) :
  length (clean_extracted_text isdigit text is_account) <= length (splitlines text)
  /\ (Forall (fun c => is_linebreak c = false) text ->
      length (clean_extracted_text isdigit text is_account) <= 1).
Proof. split; [apply clean_length_lines|apply clean_length_one_line]. Qed.

End CleaningMore.

Lemma clean_extracted_text_without_digits_witness :
  clean_extracted_text ascii_isdigit (u "abc, def") false = [].
Proof.
  apply clean_extracted_text_without_digits; [reflexivity|].
  repeat constructor.
Defined.

(** ** More on the aligner *)

Lemma combine_and_pad_lists_lengths (lists : list (list value)) :
  Forall (fun lst => length lst = max_list (length <$> lists))
    (combine_and_pad_lists lists).
Proof.
  rewrite combine_and_pad_lists_map. apply Forall_fmap, Forall_forall.
  intros lst Hin. unfold compose. rewrite length_app, repeat_length.
  pose proof (max_list_length_bound lists lst Hin). lia.
Qed.

Lemma max_list_constant (lists : list (list value)) (n : nat) :
  lists <> [] -> Forall (fun lst => length lst = n) lists ->
  max_list (length <$> lists) = n.
Proof.
  intros Hne H. induction H as [|lst lists Hlst Hlists IH]; [done|].
  destruct lists as [|lst' lists']; [simpl; lia|].
  specialize (IH ltac:(done)). simpl in *. lia.
Qed.

(** X4: sequences that already have one length are returned unchanged, so
    padding is idempotent; and padding never moves or changes an element. *)
Theorem combine_and_pad_lists_idempotent (lists : list (list value)) :
  (forall n, Forall (fun lst => length lst = n) lists ->
     combine_and_pad_lists lists = lists)
  /\ combine_and_pad_lists (combine_and_pad_lists lists) = combine_and_pad_lists lists
  /\ (forall i j lst v,
        lists !! i = Some lst -> lst !! j = Some v ->
        exists lst', combine_and_pad_lists lists !! i = Some lst' /\ lst' !! j = Some v).
Proof.
  assert (Hfix : forall (ls : list (list value)) n,
            Forall (fun lst => length lst = n) ls -> combine_and_pad_lists ls = ls).
  { intros ls n H. destruct ls as [|l0 ls0]; [reflexivity|].
    rewrite combine_and_pad_lists_map, (max_list_constant _ n) by done.
    rewrite <- (list_fmap_id (l0 :: ls0)) at 2.
    apply Forall_fmap_ext_1. eapply Forall_impl; [exact H|].
    intros lst Hlst. cbv beta in Hlst. rewrite Hlst, Nat.sub_diag. apply app_nil_r. }
  split_and!.
  - apply Hfix.
  - eapply Hfix, combine_and_pad_lists_lengths.
  - intros i j lst v Hi Hj. rewrite combine_and_pad_lists_map.
    eexists. rewrite list_lookup_fmap, Hi. split; [reflexivity|].
    by apply lookup_app_l_Some.
Qed.

(** ** More on the account lookup *)

(** X5: a lookup never raises, prints nothing and changes no existing list,
    whatever the identifier and the table: it allocates exactly one 13-field
    list (also when the key is found) and returns either that list or a list
    the table holds. *)
Theorem lookup_account_info_only_allocates (account_num : value)
  (lookup_table : gmap pystr loc) (st : State) :
  exists (l : loc) (d : record),
    lookup_account_info account_num lookup_table st
    = (inr l, mkState (heap st ++ [d]) (stdout st) (csv_file st))
    /\ length d = 13
    /\ (l = length (heap st) \/ exists key, lookup_table !! key = Some l).
Proof.
  rewrite lookup_account_info_run. do 2 eexists. split; [reflexivity|]. split.
  - destruct (template_of lookup_table account_num); [reflexivity|].
    by destruct account_num.
  - unfold template_of. destruct account_num; [by left| |];
      (destruct (lookup_table !! _) eqn:E; [right; eauto|by left]).
Qed.

(** ** More on the readers *)


(** What both scanning loops preserve. *)
Lemma scan_rectangles_preserves (Inv : gmap pystr (list pystr) -> Prop)
  (page : Page) (rectangles : list (pystr * Rect)) (d : gmap pystr (list pystr)) :
  (forall d key t, Inv d -> Inv (alter (fun lines => lines ++ splitlines (strip t)) key d)) ->
  Inv d -> Inv (scan_rectangles page rectangles d).2.
Proof.
  intros Halter. revert d.
  induction rectangles as [|[k rect] rest IH]; intros d Hd; [done|].
  cbn [scan_rectangles]. destruct (get_textbox page rect) as [e|t]; [done|].
  by apply IH, Halter.
Qed.

Lemma scan_pages_preserves (Inv : gmap pystr (list pystr) -> Prop)
  (doc : list Page) (page_nums : list nat) (rectangles : list (pystr * Rect))
  (d : gmap pystr (list pystr)) :
  (forall d key t, Inv d -> Inv (alter (fun lines => lines ++ splitlines (strip t)) key d)) ->
  Inv d -> Inv (scan_pages doc page_nums rectangles d).2.
Proof.
  intros Halter. revert d.
  induction page_nums as [|n rest IH]; intros d Hd; [done|].
  cbn [scan_pages]. destruct (doc !! n) as [page|]; [|done].
  pose proof (scan_rectangles_preserves Inv page rectangles d Halter Hd) as H.
  destruct (scan_rectangles page rectangles d) as [[e|] d']; [done|].
  by apply IH.
Qed.

Lemma no_lines_dom (rectangles : list (pystr * Rect)) :
  dom (no_lines rectangles) = list_to_set (fst <$> rectangles).
Proof.
  unfold no_lines. rewrite dom_list_to_map_L. f_equal.
  induction rectangles as [|[k r] rest IH]; [done|]. simpl. f_equal. exact IH.
Qed.

Lemma no_lines_lookup (rectangles : list (pystr * Rect)) (key : pystr)
  (lines : list pystr) :
  no_lines rectangles !! key = Some lines -> lines = [].
Proof.
  intros H. apply elem_of_list_to_map_2, list_elem_of_In, in_map_iff in H.
  destruct H as (kr & Heq & _). by injection Heq.
Qed.

(** The result of the extraction, before the message (if any) is printed. *)
Lemma extract_pdf_data_unfold (w : World) (pdf_path : pystr)
  (rectangles : list (pystr * Rect)) (num_pages : Z) (st : State) :
  exists raised d,
    match fitz_open w pdf_path with
    | inl e => (Some e, no_lines rectangles)
    | inr doc =>
        scan_pages doc (seq 0 (Z.to_nat (Z.min num_pages (Z.of_nat (length doc)))))
          rectangles (no_lines rectangles)
    end = (raised, d)
    /\ extract_pdf_data w pdf_path rectangles num_pages st
       = (inr d,
          mkState (heap st)
            (stdout st
               ++ match raised with
                  | None => []
                  | Some (FileNotFoundError _) =>
                      [Line (u "Error: PDF file not found at " ++ pdf_path)]
                  | Some e => [Line (u "Error processing PDF: " ++ exn_str e)]
                  end)
            (csv_file st)).
Proof.
  destruct st as [hp so cf]. unfold extract_pdf_data. fold (no_lines rectangles).
  destruct (match fitz_open w pdf_path with inl _ => _ | inr _ => _ end)
    as [raised d].
  exists raised, d. split; [reflexivity|]. cbn [heap stdout csv_file].
  destruct raised as [[]|]; try reflexivity. unfold ret. by rewrite app_nil_r.
Qed.

Lemma extract_pdf_data_shape (w : World) (pdf_path : pystr)
  (rectangles : list (pystr * Rect)) (num_pages : Z) (st : State) :
  exists d out,
    extract_pdf_data w pdf_path rectangles num_pages st
    = (inr d, mkState (heap st) (stdout st ++ out) (csv_file st))
    /\ length out <= 1
    /\ dom d = list_to_set (fst <$> rectangles)
    /\ map_Forall
         (fun _ lines => Forall (Forall (fun c => is_linebreak c = false)) lines) d.
Proof.
  destruct (extract_pdf_data_unfold w pdf_path rectangles num_pages st)
    as (raised & d & Hscan & ->).
  do 2 eexists. split; [reflexivity|]. split.
  { destruct raised as [[]|]; simpl; lia. }
  set (Inv := fun d : gmap pystr (list pystr) =>
                dom d = list_to_set (fst <$> rectangles)
                /\ map_Forall
                     (fun _ lines =>
                        Forall (Forall (fun c => is_linebreak c = false)) lines) d).
  assert (H0 : Inv (no_lines rectangles)).
  { split; [apply no_lines_dom|]. intros key lines Hl.
    apply no_lines_lookup in Hl as ->. constructor. }
  assert (Halter : forall d key t,
            Inv d -> Inv (alter (fun lines => lines ++ splitlines (strip t)) key d)).
  { intros d' key t [Hdom Hall]. split; [by rewrite dom_alter_L|].
    intros k lines. destruct (decide (key = k)) as [->|Hne].
    - rewrite lookup_alter_eq. intros H. apply fmap_Some in H as (old & Hold & ->).
      apply Forall_app. split; [by eapply Hall|apply splitlines_lines].
    - rewrite lookup_alter_ne by done. apply Hall. }
  change (Inv d). destruct (fitz_open w pdf_path) as [e|doc].
  - by injection Hscan as _ <-.
  - pose proof (scan_pages_preserves Inv doc
                  (seq 0 (Z.to_nat (Z.min num_pages (Z.of_nat (length doc)))))
                  rectangles _ Halter H0) as H.
    by rewrite Hscan in H.
Qed.

(** X7: the PDF reader never raises and touches neither the heap nor the file
    system; it prints at most one line.  Whatever happens, the keys of its
    result are exactly the rectangle names, and no collected entry holds a
    line boundary. *)
Theorem extract_pdf_data_never_raises (w : World) (pdf_path : pystr)
  (rectangles : list (pystr * Rect)) (num_pages : Z) (st : State) :
  exists d out,
    extract_pdf_data w pdf_path rectangles num_pages st
    = (inr d, mkState (heap st) (stdout st ++ out) (csv_file st))
    /\ length out <= 1
    /\ dom d = list_to_set (fst <$> rectangles)
    /\ map_Forall
         (fun _ lines => Forall (Forall (fun c => is_linebreak c = false)) lines) d.
Proof. apply extract_pdf_data_shape. Qed.

(** X8: when the PDF cannot be opened the reader returns every rectangle name
    with the empty list and prints exactly one line, which names the path for
    a missing file and the error otherwise. *)
Theorem extract_pdf_data_unopened (w : World) (pdf_path : pystr)
  (rectangles : list (pystr * Rect)) (num_pages : Z) (st : State) (e : exn) :
  fitz_open w pdf_path = inl e ->
  extract_pdf_data w pdf_path rectangles num_pages st
  = (inr (no_lines rectangles),
     mkState (heap st)
       (stdout st
          ++ [Line match e with
                   | FileNotFoundError _ => u "Error: PDF file not found at " ++ pdf_path
                   | _ => u "Error processing PDF: " ++ exn_str e
                   end])
       (csv_file st))
  /\ forall key lines, no_lines rectangles !! key = Some lines -> lines = [].
Proof.
  intros He. split; [|apply no_lines_lookup].
  destruct (extract_pdf_data_unfold w pdf_path rectangles num_pages st)
    as (raised & d & Hscan & ->).
  rewrite He in Hscan. injection Hscan as <- <-. by destruct e.
Qed.

Lemma extract_pdf_data_unopened_witness :
  extract_pdf_data missing_world PDF_PATH PDF_RECTANGLES 1 initial_state
  = (inr (no_lines PDF_RECTANGLES),
     mkState (heap initial_state)
       (stdout initial_state
          ++ [Line (u "Error: PDF file not found at " ++ PDF_PATH)])
       (csv_file initial_state))
  /\ forall key lines, no_lines PDF_RECTANGLES !! key = Some lines -> lines = [].
Proof.
  apply (extract_pdf_data_unopened missing_world PDF_PATH PDF_RECTANGLES 1
           initial_state (FileNotFoundError PDF_PATH)).
  reflexivity.
Defined.

Lemma scan_rectangles_other (page : Page) (rectangles : list (pystr * Rect))
  (d : gmap pystr (list pystr)) (key : pystr) :
  key ∉ fst <$> rectangles -> (scan_rectangles page rectangles d).2 !! key = d !! key.
Proof.
  revert d. induction rectangles as [|[k rect] rest IH]; intros d Hkey; [done|].
  cbn [scan_rectangles]. destruct (get_textbox page rect) as [e|t]; [done|].
  apply not_elem_of_cons in Hkey as [Hne Hrest].
  rewrite IH by done. by rewrite lookup_alter_ne.
Qed.

Lemma scan_rectangles_ok (page : Page) (rectangles : list (pystr * Rect))
  (d : gmap pystr (list pystr)) :
  NoDup (fst <$> rectangles) ->
  Forall (fun kr => exists t, get_textbox page kr.2 = inr t) rectangles ->
  (scan_rectangles page rectangles d).1 = None
  /\ forall key rect, (key, rect) ∈ rectangles ->
       (scan_rectangles page rectangles d).2 !! key
       = (fun lines => lines ++ textbox_lines page rect) <$> d !! key.
Proof.
  revert d. induction rectangles as [|[k r] rest IH]; intros d Hnd Hok.
  - split; [done|]. intros key rect Hin. by apply elem_of_nil in Hin.
  - apply NoDup_cons in Hnd as [Hk Hnd]. apply Forall_cons in Hok as [[t Ht] Hok].
    cbn [scan_rectangles]. cbn [snd] in Ht. rewrite Ht.
    destruct (IH (alter (fun lines => lines ++ splitlines (strip t)) k d) Hnd Hok)
      as [Hnone Hrest].
    split; [done|]. intros key rect Hin. apply elem_of_cons in Hin as [[= -> ->]|Hin].
    + rewrite scan_rectangles_other by done. rewrite lookup_alter_eq.
      unfold textbox_lines. by rewrite Ht.
    + rewrite (Hrest key rect Hin). rewrite lookup_alter_ne; [done|].
      intros ->. apply Hk. apply list_elem_of_fmap. by exists (key, rect).
Qed.

Lemma scan_pages_ok (doc pages : list Page) (page_nums : list nat)
  (rectangles : list (pystr * Rect)) (d : gmap pystr (list pystr)) :
  NoDup (fst <$> rectangles) ->
  Forall2 (fun n page => doc !! n = Some page) page_nums pages ->
  Forall (fun page => Forall (fun kr => exists t, get_textbox page kr.2 = inr t) rectangles)
    pages ->
  (scan_pages doc page_nums rectangles d).1 = None
  /\ forall key rect, (key, rect) ∈ rectangles ->
       (scan_pages doc page_nums rectangles d).2 !! key
       = (fun lines => lines ++ flat_map (fun page => textbox_lines page rect) pages)
           <$> d !! key.
Proof.
  intros Hnd Hpages. revert d.
  induction Hpages as [|n page page_nums pages Hn Hpages IH]; intros d Hok.
  - split; [done|]. intros key rect _. cbn [scan_pages snd flat_map].
    destruct (d !! key); simpl; [by rewrite app_nil_r|done].
  - apply Forall_cons in Hok as [Hpage Hok]. cbn [scan_pages]. rewrite Hn.
    destruct (scan_rectangles_ok page rectangles d Hnd Hpage) as [Hnone Hrect].
    destruct (scan_rectangles page rectangles d) as [raised d'].
    cbn [fst snd] in *. subst raised.
    destruct (IH d' Hok) as [Hnone' Hrest]. split; [done|].
    intros key rect Hin. rewrite (Hrest key rect Hin), (Hrect key rect Hin).
    cbn [flat_map]. destruct (d !! key); simpl; [by rewrite app_assoc|done].
Qed.

Lemma seq_pages (doc : list Page) (n : nat) :
  n <= length doc ->
  Forall2 (fun i page => doc !! i = Some page) (seq 0 n) (take n doc).
Proof.
  intros Hn. apply Forall2_same_length_lookup_2.
  - rewrite length_seq, length_take. lia.
  - intros i x page Hx Hpage. apply lookup_seq in Hx as [-> _].
    rewrite lookup_take_Some in Hpage. tauto.
Qed.

Lemma scanned_pages_count (doc : list Page) (num_pages : Z) :
  Z.to_nat (Z.min num_pages (Z.of_nat (length doc))) <= length doc
  /\ take (Z.to_nat (Z.min num_pages (Z.of_nat (length doc)))) doc
     = scanned_pages doc num_pages.
Proof.
  unfold scanned_pages. split; [lia|].
  destruct (Z.le_ge_cases num_pages (Z.of_nat (length doc))) as [H|H].
  - by rewrite Z.min_l.
  - rewrite Z.min_r, Nat2Z.id by done. rewrite !take_ge; [done|lia|lia].
Qed.

(** X9: when the document opens and every rectangle of every scanned page
    gives its text, the reader prints nothing and returns, for each rectangle
    name, the lines of the trimmed rectangle texts of the first [num_pages]
    pages (all pages when there are fewer), page after page. *)
Theorem extract_pdf_data_collects (w : World) (pdf_path : pystr)
  (rectangles : list (pystr * Rect)) (num_pages : Z) (st : State)
  (doc : list Page) :
  fitz_open w pdf_path = inr doc ->
  NoDup (fst <$> rectangles) ->
  Forall (fun page => Forall (fun kr => exists t, get_textbox page kr.2 = inr t) rectangles)
    (scanned_pages doc num_pages) ->
  exists d,
    extract_pdf_data w pdf_path rectangles num_pages st = (inr d, st)
    /\ forall key rect, (key, rect) ∈ rectangles ->
         d !! key
         = Some (flat_map (fun page => textbox_lines page rect)
                   (scanned_pages doc num_pages)).
Proof.
  intros Hopen Hnd Hok.
  destruct (extract_pdf_data_unfold w pdf_path rectangles num_pages st)
    as (raised & d & Hscan & ->).
  rewrite Hopen in Hscan.
  destruct (scanned_pages_count doc num_pages) as [Hn Htake].
  destruct (scan_pages_ok doc (scanned_pages doc num_pages) _ rectangles
              (no_lines rectangles) Hnd
              ltac:(rewrite <- Htake; by apply seq_pages) Hok) as [Hnone Hall].
  rewrite Hscan in Hnone, Hall. cbn [fst snd] in *. subst raised.
  exists d. split.
  - destruct st as [hp so cf]. cbn [heap stdout csv_file]. by rewrite app_nil_r.
  - intros key rect Hin. rewrite (Hall key rect Hin).
    assert (no_lines rectangles !! key = Some []) as ->; [|done].
    apply elem_of_list_to_map_1.
    + assert (fst <$> List.map (fun kr : pystr * Rect => (kr.1, @nil pystr)) rectangles
              = fst <$> rectangles) as ->; [|done].
      clear. induction rectangles as [|[k r] rest IH]; [done|]. simpl. f_equal. exact IH.
    + apply list_elem_of_In, in_map_iff. exists (key, rect). split; [done|].
      by apply list_elem_of_In.
Qed.

Lemma extract_pdf_data_collects_witness :
  exists d,
    extract_pdf_data
      (world_of (PyStr (u "193")) (PyInt 7) (PyInt 8)
         (u " 1 000,50 " ++ [10%N] ++ u "2") [] (u "100123456"))
      PDF_PATH PDF_RECTANGLES 2 initial_state
    = (inr d, initial_state)
    /\ forall key rect, (key, rect) ∈ PDF_RECTANGLES ->
         d !! key
         = Some (flat_map
                   (fun page => textbox_lines page rect)
                   (scanned_pages
                      [page_of (u " 1 000,50 " ++ [10%N] ++ u "2") [] (u "100123456")]
                      2)).
Proof.
  apply extract_pdf_data_collects.
  - reflexivity.
  - apply (bool_decide_unpack _). vm_compute. exact I.
  - repeat constructor; eexists; vm_compute; reflexivity.
Defined.

(** ** More on [main] *)

Lemma join_space_lines (lines : list pystr) :
  Forall (Forall (fun c => is_linebreak c = false)) lines ->
  Forall (fun c => is_linebreak c = false) (join (u " ") lines).
Proof.
  change (u " ") with [32%N].
  induction 1 as [|l ls Hl Hls IH]; [constructor|].
  destruct ls as [|l' ls']; [exact Hl|].
  change (join [32%N] (l :: l' :: ls')) with (l ++ [32%N] ++ join [32%N] (l' :: ls')).
  apply Forall_app. split; [done|]. apply Forall_app. split; [|done].
  by repeat constructor.
Qed.

Lemma returns_dict_getitem_lookup {A} (d : gmap pystr A) (key : pystr) (st : State)
  (Q : A -> State -> Prop) :
  is_Some (d !! key) -> (forall x, d !! key = Some x -> Q x st) ->
  returns (dict_getitem d key) st Q.
Proof.
  intros [x Hx] HQ. eapply returns_eq; [|by apply HQ]. unfold dict_getitem. by rewrite Hx.
Qed.

Lemma pdf_rectangle_keys (d : gmap pystr (list pystr)) :
  dom d = list_to_set (fst <$> PDF_RECTANGLES) ->
  is_Some (d !! u "value") /\ is_Some (d !! u "change")
  /\ is_Some (d !! u "account_num").
Proof.
  intros Hdom. split_and!; apply elem_of_dom; rewrite Hdom;
    apply elem_of_list_to_set, list_elem_of_In; simpl; tauto.
Qed.

(** Sections 1 to 3 of [main] allocate one list, write no file, and build
    sequences of at most two entries: one from the spreadsheet, one from the
    space-joined PDF lines. *)
Lemma main_inputs_bounded (isdigit : char -> bool) (w : World) (st : State) :
  heap_ok (heap st) ->
  returns (main_inputs isdigit w) st
    (fun r st' =>
       (exists d, heap st' = heap st ++ [d] /\ blank_off d)
       /\ csv_file st' = csv_file st
       /\ length r.1.1 <= 2 /\ length r.1.2 <= 2 /\ length r.2 <= 2).
Proof.
  intros Hok. unfold main_inputs.
  apply returns_bind.
  eapply returns_mono; [apply read_excel_data_returns|].
  intros obj st1 [[Hh1 Hc1] Hobj]. rewrite account_cell_kwargs in Hobj.
  destruct Hobj as [excel_account ->].
  apply returns_bind.
  eapply returns_mono; [apply read_excel_data_returns|].
  intros df_excel st2 [[Hh2 Hc2] Hdf]. rewrite data_range_kwargs in Hdf.
  apply returns_bind, returns_ret.
  apply returns_bind, returns_print_store. intros st3 [Hh3 Hc3].
  apply returns_bind.
  eapply returns_eq; [apply lookup_account_info_run|].
  set (d := match template_of LOOKUP_TABLE excel_account with
            | Some _ => repeat PyNone 13
            | None => default_record excel_account
            end).
  assert (Hd : blank_off d).
  { unfold d. destruct (template_of LOOKUP_TABLE excel_account);
      [apply blank_off_nones|apply blank_off_default]. }
  assert (Hheap : heap st3 = heap st) by congruence.
  assert (Hok4 : heap_ok (heap st3 ++ [d])) by (rewrite Hheap; by apply heap_ok_alloc).
  assert (Hl : default (length (heap st3)) (template_of LOOKUP_TABLE excel_account)
               < length (heap st3 ++ [d])).
  { rewrite length_app. simpl. pose proof (heap_ok_length _ Hok) as Hlen.
    rewrite Hheap. destruct (template_of LOOKUP_TABLE excel_account) as [t|] eqn:E;
      simpl; [|lia]. apply template_of_range in E. lia. }
  apply returns_bind, returns_getitem; [done|done|lia|]. intros full.
  apply returns_bind, returns_getitem; [done|done|lia|]. intros name.
  apply returns_bind, returns_getitem; [done|done|lia|]. intros city.
  apply returns_bind, returns_print_store. cbn [heap csv_file]. intros st5 [Hh5 Hc5].
  cbn [heap csv_file] in Hh5, Hc5.
  apply returns_bind.
  destruct (extract_pdf_data_shape w PDF_PATH PDF_RECTANGLES 1 st5)
    as (pdf & out & Hrun & _ & Hdom & Hlines).
  eapply returns_eq; [exact Hrun|].
  destruct (pdf_rectangle_keys pdf Hdom) as (Hv & Hch & Ha).
  apply returns_bind, returns_dict_getitem_lookup; [done|]. intros raw_value Hrv.
  apply returns_bind, returns_dict_getitem_lookup; [done|]. intros raw_change Hrc.
  apply returns_bind, returns_dict_getitem_lookup; [done|]. intros raw_accounts Hra.
  apply returns_bind.
  eapply returns_mono; [by apply excel_scalar_returns|].
  intros excel_value st7 [-> Hev].
  apply returns_bind.
  eapply returns_mono; [by apply excel_scalar_returns|].
  intros excel_change st8 [-> Hec].
  apply returns_ret. cbn [fst snd heap csv_file].
  pose proof (clean_length_one_line isdigit _ false
                (join_space_lines _ (Hlines _ _ Hrv))) as Hcv.
  pose proof (clean_length_one_line isdigit _ false
                (join_space_lines _ (Hlines _ _ Hrc))) as Hcc.
  pose proof (clean_length_one_line isdigit _ true
                (join_space_lines _ (Hlines _ _ Hra))) as Hca.
  split_and!.
  - exists d. split; [congruence|done].
  - congruence.
  - rewrite length_app, length_map. lia.
  - rewrite length_app, length_map. lia.
  - rewrite length_app, length_map. destruct excel_account; simpl; lia.
Qed.

(** One turn of the row loop when both guards hold, as a heap update. *)
Lemma row_step_run (i : nat) (rest : list nat) (q p a : list value)
  (acc : list loc) (st : State) (account_id vq vp : value) :
  heap_ok (heap st) ->
  a !! i = Some account_id -> q !! i = Some vq -> p !! i = Some vp ->
  let l := default (length (heap st)) (template_of LOOKUP_TABLE account_id) in
  let d := match template_of LOOKUP_TABLE account_id with
           | Some _ => repeat PyNone 13
           | None => default_record account_id
           end in
  exists r,
    (heap st ++ [d]) !! l = Some r
    /\ length r = 13
    /\ assemble_rows (i :: rest) q p a acc st
       = assemble_rows rest q p a (acc ++ [l])
           (mkState (<[l := <[11 := vp]> (<[10 := vq]> r)]> (heap st ++ [d]))
              (stdout st) (csv_file st)).
Proof.
  intros Hok Ha Hq Hp l d.
  assert (Hd : blank_off d).
  { unfold d. destruct (template_of LOOKUP_TABLE account_id);
      [apply blank_off_nones|apply blank_off_default]. }
  pose proof (heap_ok_alloc _ _ Hok Hd) as Hok1.
  assert (Hl : l < length (heap st ++ [d])).
  { rewrite length_app. simpl. pose proof (heap_ok_length _ Hok) as Hlen. unfold l.
    destruct (template_of LOOKUP_TABLE account_id) as [t|] eqn:E; simpl; [|lia].
    apply template_of_range in E. lia. }
  destruct (lookup_lt_is_Some_2 _ _ Hl) as [r Hr].
  destruct (heap_ok_fields _ _ _ Hok1 Hr) as [Hlen _].
  exists r. split_and!; [done|done|].
  cbn [assemble_rows]. unfold index. rewrite Ha, Hq, Hp.
  rewrite (proj2 (Nat.ltb_lt _ _) (lookup_lt_Some _ _ _ Hq)).
  rewrite (proj2 (Nat.ltb_lt _ _) (lookup_lt_Some _ _ _ Hp)).
  unfold bind at 1. cbn [ret].
  rewrite (bind_ret_r _ _ _ _ _ (lookup_account_info_run account_id LOOKUP_TABLE st)).
  fold l d.
  unfold bind at 1. unfold bind at 1. cbn [ret].
  rewrite (setitem_run l 10 r vq); [|done|lia].
  unfold bind at 1. unfold bind at 1. cbn [ret].
  rewrite (setitem_run l 11 (<[10 := vq]> r) vp);
    [|cbn [heap]; by apply list_lookup_insert_eq|rewrite length_insert; lia].
  cbn [heap stdout csv_file]. by rewrite list_insert_insert_eq.
Qed.

(** The row loop on sequences of one length, list by list: the lists of the
    table end as [table_after] says, lists allocated earlier are left alone,
    and the row of an identifier that selects no entry is its own fresh list. *)
Lemma assemble_rows_exact (indices : list nat) (q p a : list value)
  (acc : list loc) (st : State) :
  heap_ok (heap st) ->
  length q = length a -> length p = length a ->
  Forall (fun i => i < length a) indices ->
  returns (assemble_rows indices q p a acc) st
    (fun rows st' =>
       heap_ok (heap st')
       /\ (forall l r, 2 <= l -> heap st !! l = Some r -> heap st' !! l = Some r)
       /\ (forall t r, t < 2 -> heap st !! t = Some r ->
             heap st' !! t = Some (table_after q p a t indices r))
       /\ exists new,
            rows = acc ++ new
            /\ Forall2
                 (fun i l =>
                    row_loc a i l
                    /\ (template_of LOOKUP_TABLE (nth i a PyNone) = None ->
                        heap st' !! l = Some (own_row q p a i)))
                 indices new).
Proof.
  intros Hok Hq Hp Hidx. revert acc st Hok.
  induction Hidx as [|i indices Hi Hidx IH]; intros acc st Hok.
  - apply returns_ret. split_and!; try done.
    exists []. split; [by rewrite app_nil_r|constructor].
  - destruct (lookup_lt_is_Some_2 a i Hi) as [account_id Ha].
    destruct (lookup_lt_is_Some_2 q i ltac:(lia)) as [vq Hvq].
    destruct (lookup_lt_is_Some_2 p i ltac:(lia)) as [vp Hvp].
    destruct (row_step_run i indices q p a acc st account_id vq vp Hok Ha Hvq Hvp)
      as (r & Hr & Hlen & Hstep).
    cbv zeta in Hr, Hstep.
    set (l := default (length (heap st)) (template_of LOOKUP_TABLE account_id)) in *.
    set (d := match template_of LOOKUP_TABLE account_id with
              | Some _ => repeat PyNone 13
              | None => default_record account_id
              end) in *.
    set (st3 := mkState _ _ _) in Hstep.
    pose proof (heap_ok_length _ Hok) as Hlen2.
    assert (Hd : blank_off d).
    { unfold d. destruct (template_of LOOKUP_TABLE account_id);
        [apply blank_off_nones|apply blank_off_default]. }
    assert (Hok3 : heap_ok (heap st3)).
    { unfold st3. cbn [heap]. pose proof (heap_ok_alloc _ _ Hok Hd) as Hok1.
      rewrite <- (list_insert_insert_eq (heap st ++ [d]) l
                    (<[11 := vp]> (<[10 := vq]> r)) (<[10 := vq]> r)).
      apply heap_ok_set;
        [by apply heap_ok_set; [| |left]
        |apply list_lookup_insert_eq; by apply lookup_lt_Some in Hr
        |by right]. }
    assert (Hnth_q : nth i q PyNone = vq) by (by apply nth_lookup_Some).
    assert (Hnth_p : nth i p PyNone = vp) by (by apply nth_lookup_Some).
    destruct (IH (acc ++ [l]) st3 Hok3)
      as (rows & st' & Hrun & Hok' & Hframe & Htable & new & -> & Hnew).
    exists ((acc ++ [l]) ++ new), st'. split; [by rewrite Hstep|].
    split_and!; [done| | |].
    + intros l' r' Hl' Hr'. apply Hframe; [done|]. unfold st3. cbn [heap].
      pose proof (lookup_lt_Some _ _ _ Hr') as Hlt.
      rewrite list_lookup_insert_ne; [by apply lookup_app_l_Some|].
      unfold l. destruct (template_of LOOKUP_TABLE account_id) as [t|] eqn:E;
        simpl; [|lia]. apply template_of_range in E. lia.
    + intros t r0 Ht Hr0. cbn [table_after fold_left].
      rewrite (nth_lookup_Some _ _ PyNone _ Ha), Hnth_q, Hnth_p.
      fold (table_after q p a t indices).
      apply Htable; [done|]. unfold st3. cbn [heap].
      pose proof (lookup_app_l_Some _ [d] _ _ Hr0) as Hr1.
      case_bool_decide as Hsel.
      * assert (l = t) as Hlt by (unfold l; by rewrite Hsel).
        rewrite Hlt in *. assert (r = r0) as -> by congruence.
        apply list_lookup_insert_eq. by apply lookup_lt_Some in Hr1.
      * rewrite list_lookup_insert_ne; [done|].
        unfold l. destruct (template_of LOOKUP_TABLE account_id) as [t'|] eqn:E;
          simpl; [congruence|lia].
    + exists (l :: new). split; [by rewrite <- app_assoc|].
      constructor; [|done]. split.
      * unfold row_loc. rewrite (nth_lookup_Some _ _ PyNone _ Ha). unfold l.
        destruct (template_of LOOKUP_TABLE account_id); simpl; [done|lia].
      * rewrite (nth_lookup_Some _ _ PyNone _ Ha). intros Hnone.
        apply Hframe; [unfold l; rewrite Hnone; simpl; lia|].
        unfold st3. cbn [heap]. unfold own_row.
        rewrite (nth_lookup_Some _ _ PyNone _ Ha), Hnth_q, Hnth_p.
        assert (r = default_record account_id) as ->.
        { unfold l, d in Hr. rewrite Hnone in Hr. simpl in Hr.
          rewrite list_lookup_middle in Hr by done. congruence. }
        apply list_lookup_insert_eq. by apply lookup_lt_Some in Hr.
Qed.

Lemma table_after_padded (q p a : list value) (kq kp ka : nat) (t : loc)
  (indices : list nat) (r : record) :
  table_after (q ++ repeat PyNone kq) (p ++ repeat PyNone kp) (a ++ repeat PyNone ka)
    t indices r
  = table_after q p a t indices r.
Proof.
  unfold table_after. revert r.
  induction indices as [|i indices IH]; intros r; [reflexivity|].
  cbn [fold_left]. by rewrite IH, !nth_padded.
Qed.

Lemma own_row_padded (q p a : list value) (kq kp ka i : nat) :
  own_row (q ++ repeat PyNone kq) (p ++ repeat PyNone kp) (a ++ repeat PyNone ka) i
  = own_row q p a i.
Proof. unfold own_row. by rewrite !nth_padded. Qed.

(** The padding step and the row loop together, list by list. *)
Lemma main_rows_exact (q p a : list value) (st : State) :
  heap_ok (heap st) ->
  returns (main_rows q p a) st
    (fun rows st' =>
       heap_ok (heap st')
       /\ csv_file st' = csv_file st
       /\ Forall (fun l => l < length (heap st')) rows
       /\ length rows = max_list [length q; length p; length a]
       /\ (forall t r, t < 2 -> heap st !! t = Some r ->
             heap st' !! t = Some (table_after q p a t (seq 0 (length rows)) r))
       /\ (forall i l, rows !! i = Some l ->
             match template_of LOOKUP_TABLE (nth i a PyNone) with
             | Some t => l = t
             | None => heap st' !! l = Some (own_row q p a i)
             end)).
Proof.
  intros Hok.
  destruct (main_rows_returns q p a st Hok)
    as (rows & st' & Hrun & (_ & _ & _ & Hcsv) & Hvalid & Hn & _).
  exists rows, st'. split; [exact Hrun|].
  unfold main_rows in Hrun.
  destruct (combine_and_pad_lists_three q p a)
    as (q' & p' & a' & Hpad & Hq & Hp & Ha & Hq' & Hp' & Ha').
  rewrite Hpad in Hrun. cbv zeta in Hrun.
  unfold bind, index in Hrun. cbn [lookup list_lookup ret] in Hrun.
  destruct (assemble_rows_exact (seq 0 (length a')) q' p' a' [] st Hok
              ltac:(congruence) ltac:(congruence))
    as (rows' & st'' & Hrun' & Hok' & _ & Htable & new & Hrows & Hnew).
  { apply Forall_forall. intros i Hin. apply list_elem_of_In, in_seq in Hin. lia. }
  rewrite Hrun' in Hrun. injection Hrun as -> ->. cbn [app] in Hrows. subst new.
  assert (Hlen : length rows = length a').
  { apply Forall2_length in Hnew. by rewrite length_seq in Hnew. }
  split_and!; [done|done|done|done| |].
  - intros t r Ht Hr. rewrite (Htable t r Ht Hr), Hlen. f_equal.
    pose proof (table_after_padded q p a (length q' - length q)
                  (length p' - length p) (length a' - length a) t
                  (seq 0 (length a')) r) as E.
    by rewrite <- Hq', <- Hp', <- Ha' in E.
  - intros i l Hl.
    destruct (Forall2_lookup_r _ _ _ _ _ Hnew Hl) as (i' & Hi' & Hloc & Hown).
    apply lookup_seq in Hi' as [-> _]. simpl in Hloc, Hown.
    unfold row_loc in Hloc.
    assert (Hnth : nth i a' PyNone = nth i a PyNone).
    { rewrite Ha'. apply nth_padded. }
    rewrite Hnth in Hloc, Hown.
    destruct (template_of LOOKUP_TABLE (nth i a PyNone)); [done|].
    rewrite (Hown eq_refl). f_equal.
    pose proof (own_row_padded q p a (length q' - length q)
                  (length p' - length p) (length a' - length a) i) as E.
    by rewrite <- Hq', <- Hp', <- Ha' in E.
Qed.

(** A run of [main], stage by stage. *)
Lemma main_run_exact (isdigit : char -> bool) (w : World) :
  exists q p a st1 rows st2,
    main_inputs isdigit w initial_state = (inr (q, p, a), st1)
    /\ length q <= 2 /\ length p <= 2 /\ length a <= 2
    /\ main_rows q p a st1 = (inr rows, st2)
    /\ heap_ok (heap st2)
    /\ csv_file st2 = None
    /\ Forall (fun l => l < length (heap st2)) rows
    /\ length rows = max_list [length q; length p; length a]
    /\ (forall t, t < 2 ->
          heap st2 !! t
          = Some (table_after q p a t (seq 0 (length rows)) (table_literal t)))
    /\ (forall i l, rows !! i = Some l ->
          match template_of LOOKUP_TABLE (nth i a PyNone) with
          | Some t => l = t
          | None => heap st2 !! l = Some (own_row q p a i)
          end)
    /\ main isdigit w initial_state = main_save rows st2.
Proof.
  destruct (main_inputs_bounded isdigit w initial_state heap_ok_initial)
    as ([[q p] a] & st1 & Hin & (d & Hheap & Hd) & Hcsv1 & Hq & Hp & Ha).
  cbn [fst snd] in Hq, Hp, Ha.
  assert (Hok1 : heap_ok (heap st1)).
  { rewrite Hheap. apply heap_ok_alloc; [apply heap_ok_initial|done]. }
  destruct (main_rows_exact q p a st1 Hok1)
    as (rows & st2 & Hrows & Hok2 & Hcsv2 & Hvalid & Hn & Htable & Hown).
  exists q, p, a, st1, rows, st2. split_and!; try done.
  - by rewrite Hcsv2, Hcsv1.
  - intros t Ht. apply Htable; [done|]. rewrite Hheap.
    destruct t as [|[|t]]; [reflexivity|reflexivity|lia].
  - unfold main. rewrite (bind_ret_r _ _ _ _ _ Hin).
    by rewrite (bind_ret_r _ _ _ _ _ Hrows).
Qed.

(** What [main_save] leaves in the file, in one statement for both cases. *)
Lemma main_save_csv_rows (rows : list loc) (st : State) :
  csv_file st = None ->
  Forall (fun l => l < length (heap st)) rows ->
  exists st',
    main_save rows st = (inr tt, st')
    /\ heap st' = heap st
    /\ Forall2 (fun l r => heap st !! l = Some r) rows (csv_rows st')
    /\ (csv_file st' = None <-> rows = []).
Proof.
  intros Hcsv Hvalid. destruct (decide (rows = [])) as [->|Hne].
  - eexists. split; [apply main_save_empty|].
    unfold csv_rows. cbn [heap csv_file]. rewrite Hcsv. by split_and!.
  - destruct (main_save_rows rows st Hne Hvalid) as (recs & Hrecs & ->).
    eexists. split; [reflexivity|]. unfold csv_rows. cbn [heap csv_file].
    split_and!; [done|done|]. split; [done|]. by intros ->.
Qed.

Lemma insert_fields_overwrite (r : record) (x y x' y' : value) :
  <[11 := y]> (<[10 := x]> (<[11 := y']> (<[10 := x']> r)))
  = <[11 := y]> (<[10 := x]> r).
Proof.
  rewrite (list_insert_insert_ne _ 10 11) by lia.
  by rewrite list_insert_insert_eq, list_insert_insert_eq.
Qed.

Lemma table_after_overwritten (q p a : list value) (t : loc) (indices : list nat)
  (r : record) (x y : value) :
  <[11 := y]> (<[10 := x]> (table_after q p a t indices r))
  = <[11 := y]> (<[10 := x]> r).
Proof.
  unfold table_after. revert r.
  induction indices as [|i indices IH]; intros r; [reflexivity|].
  cbn [fold_left]. rewrite IH. case_bool_decide; [apply insert_fields_overwrite|done].
Qed.

Lemma table_after_unselected (q p a : list value) (t : loc) (indices : list nat)
  (r : record) :
  Forall (fun i => template_of LOOKUP_TABLE (nth i a PyNone) <> Some t) indices ->
  table_after q p a t indices r = r.
Proof.
  unfold table_after. induction 1 as [|i indices Hi Hidx IH]; [reflexivity|].
  cbn [fold_left]. by rewrite bool_decide_eq_false_2.
Qed.

(** The table list [t] ends with the quantity and cost basis of the last row
    that selects it. *)
Lemma table_after_last (q p a : list value) (t : loc) (n j : nat) (r : record) :
  j < n ->
  template_of LOOKUP_TABLE (nth j a PyNone) = Some t ->
  (forall k, j < k < n -> template_of LOOKUP_TABLE (nth k a PyNone) <> Some t) ->
  table_after q p a t (seq 0 n) r
  = <[11 := nth j p PyNone]> (<[10 := nth j q PyNone]> r).
Proof.
  intros Hj Hsel Hlast.
  replace n with (j + S (n - S j)) by lia.
  rewrite seq_app. cbn [seq]. unfold table_after. rewrite fold_left_app.
  cbn [fold_left]. rewrite bool_decide_eq_true_2 by done.
  fold (table_after q p a t (seq 0 j) r).
  rewrite table_after_overwritten.
  apply table_after_unselected, Forall_forall. intros k Hk.
  apply list_elem_of_In, in_seq in Hk. apply Hlast. lia.
Qed.

(** X10: [main] writes as many rows as the longest of its three combined
    sequences has entries, and writes no file exactly when all three are
    empty. *)
Theorem main_row_count (isdigit : char -> bool) (w : World) :
  exists q p a st1 st',
    main_inputs isdigit w initial_state = (inr (q, p, a), st1)
    /\ main isdigit w initial_state = (inr tt, st')
    /\ length (csv_rows st') = max_list [length q; length p; length a]
    /\ (csv_file st' = None <-> q = [] /\ p = [] /\ a = []).
Proof.
  destruct (main_run_exact isdigit w)
    as (q & p & a & st1 & rows & st2 & Hin & _ & _ & _ & _ & _ & Hcsv & Hvalid
        & Hn & _ & _ & Hmain).
  destruct (main_save_csv_rows rows st2 Hcsv Hvalid) as (st' & Hsave & _ & Hrecs & Hnone).
  exists q, p, a, st1, st'. split_and!; [done|by rewrite Hmain| |].
  - apply Forall2_length in Hrecs. by rewrite <- Hrecs.
  - rewrite Hnone. split.
    + intros ->. simpl in Hn. destruct q, p, a; simpl in Hn; try lia. done.
    + intros (-> & -> & ->). by destruct rows.
Qed.

(** X11: [main] never writes more than two rows.  The lines of a rectangle are
    joined by a space before they are cleaned, so each combined sequence holds
    at most the spreadsheet value and one PDF entry. *)
Theorem main_writes_at_most_two_rows (isdigit : char -> bool) (w : World) :
  exists q p a st1 st',
    main_inputs isdigit w initial_state = (inr (q, p, a), st1)
    /\ length q <= 2 /\ length p <= 2 /\ length a <= 2
    /\ main isdigit w initial_state = (inr tt, st')
    /\ length (csv_rows st') <= 2.
Proof.
  destruct (main_run_exact isdigit w)
    as (q & p & a & st1 & rows & st2 & Hin & Hq & Hp & Ha & _ & _ & Hcsv & Hvalid
        & Hn & _ & _ & Hmain).
  destruct (main_save_csv_rows rows st2 Hcsv Hvalid) as (st' & Hsave & _ & Hrecs & _).
  exists q, p, a, st1, st'. split_and!; try done; [by rewrite Hmain|].
  apply Forall2_length in Hrecs. rewrite <- Hrecs, Hn. simpl. lia.
Qed.

(** X12: every row [main] writes, in terms of its combined sequences.  The row
    of an identifier that selects no table entry is the default record with
    that row's own quantity and cost basis.  The row of an identifier that
    selects a table entry is that entry's list as all the rows have left it. *)
Theorem main_output_rows (isdigit : char -> bool) (w : World) :
  exists q p a st1 st',
    main_inputs isdigit w initial_state = (inr (q, p, a), st1)
    /\ main isdigit w initial_state = (inr tt, st')
    /\ forall i r, csv_rows st' !! i = Some r ->
         r = match template_of LOOKUP_TABLE (nth i a PyNone) with
             | Some t =>
                 table_after q p a t (seq 0 (length (csv_rows st'))) (table_literal t)
             | None => own_row q p a i
             end.
Proof.
  destruct (main_run_exact isdigit w)
    as (q & p & a & st1 & rows & st2 & Hin & _ & _ & _ & _ & _ & Hcsv & Hvalid
        & _ & Htable & Hown & Hmain).
  destruct (main_save_csv_rows rows st2 Hcsv Hvalid) as (st' & Hsave & _ & Hrecs & _).
  exists q, p, a, st1, st'. split_and!; [done|by rewrite Hmain|].
  intros i r Hr. pose proof (Forall2_length _ _ _ Hrecs) as Hlen.
  destruct (Forall2_lookup_r _ _ _ _ _ Hrecs Hr) as (l & Hl & Hheap).
  specialize (Hown i l Hl).
  destruct (template_of LOOKUP_TABLE (nth i a PyNone)) as [t|] eqn:E.
  - subst l. rewrite <- Hlen. rewrite Htable in Hheap; [congruence|].
    apply template_of_range in E. lia.
  - congruence.
Qed.

(** X13: all the rows whose identifiers select one table entry are written
    alike: each is the entry's literal with the quantity and cost basis of
    the last of them. *)
Theorem matched_rows_show_last_row (isdigit : char -> bool) (w : World) :
  exists q p a st1 st',
    main_inputs isdigit w initial_state = (inr (q, p, a), st1)
    /\ main isdigit w initial_state = (inr tt, st')
    /\ forall i j t r,
         csv_rows st' !! i = Some r ->
         template_of LOOKUP_TABLE (nth i a PyNone) = Some t ->
         j < length (csv_rows st') ->
         template_of LOOKUP_TABLE (nth j a PyNone) = Some t ->
         (forall k, j < k < length (csv_rows st') ->
            template_of LOOKUP_TABLE (nth k a PyNone) <> Some t) ->
         r = <[11 := nth j p PyNone]> (<[10 := nth j q PyNone]> (table_literal t)).
Proof.
  destruct (main_run_exact isdigit w)
    as (q & p & a & st1 & rows & st2 & Hin & _ & _ & _ & _ & _ & Hcsv & Hvalid
        & _ & Htable & Hown & Hmain).
  destruct (main_save_csv_rows rows st2 Hcsv Hvalid) as (st' & Hsave & _ & Hrecs & _).
  exists q, p, a, st1, st'. split_and!; [done|by rewrite Hmain|].
  intros i j t r Hr Hi Hj Hsel Hlast. pose proof (Forall2_length _ _ _ Hrecs) as Hlen.
  destruct (Forall2_lookup_r _ _ _ _ _ Hrecs Hr) as (l & Hl & Hheap).
  specialize (Hown i l Hl). rewrite Hi in Hown. subst l.
  rewrite Htable in Hheap by (apply template_of_range in Hi; lia).
  injection Hheap as <-. rewrite Hlen. by apply table_after_last.
Qed.

(** X14: when [main] returns, the two lists of LOOKUP_TABLE still have 13
    fields and differ from their literals in fields 10 and 11 at most. *)
Theorem main_keeps_templates (isdigit : char -> bool) (w : World) :
  exists st' r0 r1,
    main isdigit w initial_state = (inr tt, st')
    /\ heap st' !! 0 = Some r0 /\ agrees_off template_193 r0
    /\ heap st' !! 1 = Some r1 /\ agrees_off template_100 r1.
Proof.
  destruct (main_run_exact isdigit w)
    as (q & p & a & st1 & rows & st2 & _ & _ & _ & _ & _ & Hok & Hcsv & Hvalid
        & _ & _ & _ & Hmain).
  destruct (main_save_csv_rows rows st2 Hcsv Hvalid) as (st' & Hsave & Hheap & _ & _).
  destruct Hok as ((r0 & H0 & A0) & (r1 & H1 & A1) & _).
  exists st', r0, r1. rewrite Hheap. split_and!; try done. by rewrite Hmain.
Qed.
